(** * AgentExecutorNode: the agent executor tool

    A shallow embedding of
    [packages/components/nodes/tools/AgentExecutorNode.ts]: the class
    [AgentExecutorLangchainTool] with its entry point [_call] and its five
    handlers.

    Values are JavaScript data: JSON data, [undefined], and BigInt, the
    plain value that [JSON.stringify] refuses (an object that contains
    itself, refused alike, has no representation here).  Numbers are
    integers (exit codes, ports, timestamps); floating point is not
    modelled.  Strings are text in UTF-8, a sequence of bytes.

    The handlers talk to the file system, to child processes, to the Docker
    daemon and to an SSH server.  These collaborators are not part of the
    program: they are a [Backend] of oracles, each answering a call from the
    calls and events that came before it (the [Trace]).  Every theorem holds
    for every backend.  A call to a collaborator is assumed to settle
    (resolve or reject); a call that never answers is not modelled. *)

Set Warnings "-register-all".
From Stdlib Require Import ZArith List String Ascii Bool Lia.
From Stdlib Require Import DecimalString DecimalPos DecimalZ.
Import ListNotations.

Local Open Scope string_scope.
Local Open Scope list_scope.

(** ** JavaScript values *)

Inductive JsVal : Type :=
| JUndefined
| JNull
| JBool (b : bool)
| JNum (n : Z)
| JStr (s : string)
| JArr (items : list JsVal)
| JObj (fields : list (string * JsVal))
| JBigInt (n : Z).

(** The double quote and the line feed, as characters and as strings. *)
Definition dquote : ascii := "034"%char.
Definition dq : string := String dquote EmptyString.
Definition nl : string := String "010"%char EmptyString.

Definition str_cat (a b : string) : string := String.append a b.
Infix "^" := str_cat (at level 30, right associativity) : string_scope.

(** [!v]: the values that are falsy. *)
Definition truthy (v : JsVal) : bool :=
  match v with
  | JUndefined | JNull => false
  | JBool b => b
  | JNum n => negb (Z.eqb n 0)
  | JStr s => negb (String.eqb s "")
  | JArr _ | JObj _ => true
  | JBigInt n => negb (Z.eqb n 0)
  end.

Definition falsy (v : JsVal) : bool := negb (truthy v).

(** [a || b] *)
Definition js_or (a b : JsVal) : JsVal := if truthy a then a else b.

(** [v === "lit"] *)
Definition is_str (v : JsVal) (lit : string) : bool :=
  match v with
  | JStr s => String.eqb s lit
  | _ => false
  end.

(** [v === undefined] *)
Definition is_undefined (v : JsVal) : bool :=
  match v with JUndefined => true | _ => false end.

Definition is_nullish (v : JsVal) : bool :=
  match v with JUndefined | JNull => true | _ => false end.

(** A destructuring default, [{ x = d } = ...]: used when the property is
    [undefined], and only then. *)
Definition default_to (d v : JsVal) : JsVal :=
  if is_undefined v then d else v.

Fixpoint assoc (k : string) (fields : list (string * JsVal)) : JsVal :=
  match fields with
  | [] => JUndefined
  | (k', v) :: rest => if String.eqb k k' then v else assoc k rest
  end.

(** Reading a property of a value that is not nullish.  Only objects carry
    the names this program reads. *)
Definition prop (v : JsVal) (k : string) : JsVal :=
  match v with
  | JObj fields => assoc k fields
  | _ => JUndefined
  end.

(** Writing a property: in place when the key exists, at the end otherwise. *)
Fixpoint obj_set (k : string) (v : JsVal) (fields : list (string * JsVal))
  : list (string * JsVal) :=
  match fields with
  | [] => [(k, v)]
  | (k', v') :: rest =>
      if String.eqb k k' then (k', v) :: rest else (k', v') :: obj_set k v rest
  end.

Definition show_Z (n : Z) : string := NilZero.string_of_int (Z.to_int n).
Definition show_nat (n : nat) : string := NilZero.string_of_uint (Nat.to_uint n).

Fixpoint join (sep : string) (parts : list string) : string :=
  match parts with
  | [] => ""
  | [p] => p
  | p :: rest => p ^ sep ^ join sep rest
  end.

(** The own enumerable properties a spread [...v] copies. *)
Fixpoint indexed {A : Type} (i : nat) (l : list A) : list (string * A) :=
  match l with
  | [] => []
  | x :: rest => (show_nat i, x) :: indexed (S i) rest
  end.

(** The characters of a string, as iterating it or spreading it gives
    them: a leading byte of UTF-8 with the continuation bytes that follow
    it.  (A character beyond U+FFFF, two code units to JavaScript, is one
    character here.) *)
Definition is_continuation (c : ascii) : bool :=
  let n := nat_of_ascii c in (Nat.leb 128 n && Nat.ltb n 192)%bool.

Fixpoint code_points (s : string) : list string :=
  match s with
  | EmptyString => []
  | String c rest =>
      let continued :=
        match rest with
        | String d _ => is_continuation d
        | EmptyString => false
        end in
      match code_points rest with
      | p :: ps =>
          if continued then String c p :: ps
          else String c EmptyString :: p :: ps
      | [] => [String c EmptyString]
      end
  end.

Definition chars (s : string) : list JsVal := map JStr (code_points s).

Definition spread_props (v : JsVal) : list (string * JsVal) :=
  match v with
  | JObj fields => fields
  | JArr items => indexed 0 items
  | JStr s => indexed 0 (chars s)
  | _ => []
  end.

(** [{ ...base, ...v }] *)
Definition spread_into (base : list (string * JsVal)) (v : JsVal)
  : list (string * JsVal) :=
  fold_left (fun acc kv => obj_set (fst kv) (snd kv) acc) (spread_props v) base.

(** [k] is an own property of the object. *)
Fixpoint has_key (k : string) (fields : list (string * JsVal)) : bool :=
  match fields with
  | [] => false
  | (k', _) :: rest => (String.eqb k k' || has_key k rest)%bool
  end.

(** [String(v)], the conversion a template literal applies; [None] where it
    throws a [TypeError].  An object converts through its [toString]: the
    inherited one gives [[object Object]]; an own property of that name,
    which no value of this model can make callable, leaves the object
    without a primitive value.  An array joins the conversions of its
    items, the empty text standing for [null] and [undefined]. *)
Fixpoint to_string (v : JsVal) : option string :=
  match v with
  | JUndefined => Some "undefined"
  | JNull => Some "null"
  | JBool b => Some (if b then "true" else "false")
  | JNum n => Some (show_Z n)
  | JBigInt n => Some (show_Z n)
  | JStr s => Some s
  | JArr items =>
      option_map (join ",")
        ((fix each (l : list JsVal) : option (list string) :=
            match l with
            | [] => Some []
            | x :: rest =>
                match (if is_nullish x then Some "" else to_string x),
                      each rest with
                | Some first, Some others => Some (first :: others)
                | _, _ => None
                end
            end) items)
  | JObj fields =>
      if has_key "toString" fields then None else Some "[object Object]"
  end.

(** ** Strings: [trim] and [split(' ')] *)

(** The white space and line terminators of ECMAScript, in UTF-8: the
    characters of one byte (tab to carriage return, space), U+00A0 in two
    bytes, and in three bytes U+1680, U+2000 to U+200A, U+2028, U+2029,
    U+202F, U+205F, U+3000 and U+FEFF. *)
Definition is_space (c : ascii) : bool :=
  let n := nat_of_ascii c in
  (Nat.eqb n 32 || (Nat.leb 9 n && Nat.leb n 13))%bool.

Definition is_space2 (a b : ascii) : bool :=
  (Nat.eqb (nat_of_ascii a) 194 && Nat.eqb (nat_of_ascii b) 160)%bool.

Definition is_space3 (a b c : ascii) : bool :=
  let x := nat_of_ascii a in
  let y := nat_of_ascii b in
  let z := nat_of_ascii c in
  ((Nat.eqb x 225 && Nat.eqb y 154 && Nat.eqb z 128)
   || (Nat.eqb x 226 && Nat.eqb y 128
       && ((Nat.leb 128 z && Nat.leb z 138)
           || Nat.eqb z 168 || Nat.eqb z 169 || Nat.eqb z 175))
   || (Nat.eqb x 226 && Nat.eqb y 129 && Nat.eqb z 159)
   || (Nat.eqb x 227 && Nat.eqb y 128 && Nat.eqb z 128)
   || (Nat.eqb x 239 && Nat.eqb y 187 && Nat.eqb z 191))%bool.

Fixpoint trim_start (s : string) : string :=
  match s with
  | EmptyString => EmptyString
  | String a r1 =>
      if is_space a then trim_start r1
      else
        match r1 with
        | EmptyString => s
        | String b r2 =>
            if is_space2 a b then trim_start r2
            else
              match r2 with
              | EmptyString => s
              | String c r3 => if is_space3 a b c then trim_start r3 else s
              end
        end
  end.

(** The string without its trailing white space. *)
Fixpoint trim_end (s : string) : string :=
  match s with
  | EmptyString => EmptyString
  | String a r1 =>
      if is_space a then
        match trim_end r1 with
        | EmptyString => EmptyString
        | kept => String a kept
        end
      else
        match r1 with
        | EmptyString => s
        | String b r2 =>
            if is_space2 a b then
              match trim_end r2 with
              | EmptyString => EmptyString
              | kept => String a (String b kept)
              end
            else
              match r2 with
              | EmptyString => String a (trim_end r1)
              | String c r3 =>
                  if is_space3 a b c then
                    match trim_end r3 with
                    | EmptyString => EmptyString
                    | kept => String a (String b (String c kept))
                    end
                  else String a (trim_end r1)
              end
        end
  end.

(** [s.trim()] *)
Definition trim (s : string) : string := trim_end (trim_start s).

(** [s.split(' ')] *)
Fixpoint split_space (s : string) : list string :=
  match s with
  | EmptyString => [EmptyString]
  | String c rest =>
      if Ascii.eqb c " "%char then EmptyString :: split_space rest
      else
        match split_space rest with
        | [] => [String c EmptyString]
        | w :: ws => String c w :: ws
        end
  end.

(** ** [JSON.stringify(value, null, 2)] *)

Definition hex_digit (n : nat) : ascii :=
  if Nat.ltb n 10 then ascii_of_nat (48 + n) else ascii_of_nat (87 + n).

Definition escape_char (c : ascii) : string :=
  let n := nat_of_ascii c in
  if Nat.eqb n 34 then "\" ^ dq
  else if Nat.eqb n 92 then "\\"
  else if Nat.eqb n 8 then "\b"
  else if Nat.eqb n 12 then "\f"
  else if Nat.eqb n 10 then "\n"
  else if Nat.eqb n 13 then "\r"
  else if Nat.eqb n 9 then "\t"
  else if Nat.ltb n 32 then
    "\u00" ^ String (hex_digit (n / 16)) (String (hex_digit (n mod 16)) "")
  else String c "".

Fixpoint escape (s : string) : string :=
  match s with
  | EmptyString => EmptyString
  | String c rest => escape_char c ^ escape rest
  end.

Definition quote (s : string) : string := dq ^ escape s ^ dq.

Definition bracket (open close ind : string) (parts : list string) : string :=
  match parts with
  | [] => open ^ close
  | _ =>
      let inner := ind ^ "  " in
      open ^ nl ^ inner ^ join ("," ^ nl ^ inner) parts ^ nl ^ ind ^ close
  end.

(** What [JSON.stringify] makes of a value: text, [undefined], or a
    [TypeError]. *)
Inductive Serialized : Type :=
| Json (text : string)
| NoJson
| JsonRefused.

(** The text of [v] at the indentation [ind].  [undefined] has no text; an
    array renders an [undefined] item as [null]; an object leaves out a
    property whose value is [undefined]; a BigInt, wherever it sits, is
    refused. *)
Fixpoint serialize (ind : string) (v : JsVal) {struct v} : Serialized :=
  match v with
  | JUndefined => NoJson
  | JNull => Json "null"
  | JBool b => Json (if b then "true" else "false")
  | JNum n => Json (show_Z n)
  | JStr s => Json (quote s)
  | JBigInt _ => JsonRefused
  | JArr items =>
      match
        (fix each (l : list JsVal) : option (list string) :=
           match l with
           | [] => Some []
           | x :: rest =>
               match serialize (ind ^ "  ") x, each rest with
               | Json t, Some others => Some (t :: others)
               | NoJson, Some others => Some ("null" :: others)
               | _, _ => None
               end
           end) items
      with
      | Some parts => Json (bracket "[" "]" ind parts)
      | None => JsonRefused
      end
  | JObj fields =>
      match
        (fix each (l : list (string * JsVal)) : option (list string) :=
           match l with
           | [] => Some []
           | (k, x) :: rest =>
               match serialize (ind ^ "  ") x, each rest with
               | Json t, Some others => Some ((quote k ^ ": " ^ t) :: others)
               | NoJson, Some others => Some others
               | _, _ => None
               end
           end) fields
      with
      | Some parts => Json (bracket "{" "}" ind parts)
      | None => JsonRefused
      end
  end.

(** The text [JSON.stringify(v, null, 2)] returns, where it returns text. *)
Definition JSON_text (v : JsVal) : option string :=
  match serialize "" v with
  | Json text => Some text
  | _ => None
  end.

(** A BigInt sits somewhere in the value. *)
Fixpoint has_bigint (v : JsVal) : bool :=
  match v with
  | JBigInt _ => true
  | JArr items =>
      (fix any (l : list JsVal) : bool :=
         match l with
         | [] => false
         | x :: rest => (has_bigint x || any rest)%bool
         end) items
  | JObj fields =>
      (fix any (l : list (string * JsVal)) : bool :=
         match l with
         | [] => false
         | (_, x) :: rest => (has_bigint x || any rest)%bool
         end) fields
  | _ => false
  end.

(** ** Errors, events and the backend *)

(** A thrown [Error]: its message, its stack text, and the further
    properties a library attaches to it. *)
Record JsError : Type := mkError {
  message : string;
  stack : string;
  extra : list (string * JsVal)
}.

(** [error.k] *)
Definition error_prop (e : JsError) (k : string) : JsVal :=
  if String.eqb k "message" then JStr (message e)
  else if String.eqb k "stack" then JStr (stack e)
  else assoc k (extra e).

(** The error seen as a plain value, for a promise that resolves with it. *)
Definition error_object (e : JsError) : JsVal :=
  JObj (("message", JStr (message e)) :: ("stack", JStr (stack e)) :: extra e).

(** What crosses the boundary of the program, oldest first: the calls it
    makes to its collaborators and the stream events they deliver. *)
Inductive Event : Type :=
| DateNow (ms : Z)
| FsReadFile (path encoding : JsVal)
| FsWriteFile (path content encoding : JsVal)
| FsRemove (path : JsVal)
| FsReaddir (path : JsVal)
| FsPathExists (path : JsVal)
| Execa (file args options : JsVal)
| DockerListContainers (opts : JsVal)
| DockerInspectContainer (id : JsVal)
| DockerExecCreate (id opts : JsVal)
| DockerExecStart (opts : JsVal)
| StreamData (chunk : string)
| StreamEnd
| StreamError (e : JsError)
| DockerExecInspect
| SshConnect (config : JsVal)
| SshExec (command : JsVal)
| SshEnd
| ConsoleError (args : list JsVal) (e : JsError).

Definition Trace : Type := list Event.

Inductive Res (A : Type) : Type :=
| Ok (a : A)
| Throw (e : JsError).
Arguments Ok {A} a.
Arguments Throw {A} e.

(** What [fs.readFile] resolves to: text under an encoding, the bytes of a
    [Buffer] without one. *)
Inductive FileData : Type :=
| Text (s : string)
| Bytes (data : list Z).

(** What [exec.start] hands to its callback: an error, no stream, or a
    stream that delivers its chunks and then ends or fails. *)
Inductive StreamFinish : Type :=
| StreamEnded
| StreamFailed (e : JsError).

Inductive ExecStart : Type :=
| StartFailed (e : JsError)
| NoStream
| Streaming (chunks : list string) (fin : StreamFinish).

(** How an SSH session goes: the connection fails, [conn.exec] reports an
    error, the connection fails after the command was sent, or the channel
    closes with what both of its streams delivered. *)
Inductive SshRun : Type :=
| ConnectFailed (e : JsError)
| ExecFailed (e : JsError)
| LateError (e : JsError)
| Closed (out err : list string) (code signal : JsVal).

Record Backend : Type := {
  error_stack : string -> string -> string;
  date_now : Trace -> Z;
  fs_readFile : JsVal -> JsVal -> Trace -> Res FileData;
  fs_writeFile : JsVal -> JsVal -> JsVal -> Trace -> Res unit;
  fs_remove : JsVal -> Trace -> Res unit;
  fs_readdir : JsVal -> Trace -> Res (list string);
  fs_pathExists : JsVal -> Trace -> Res bool;
  execa_settles : JsVal -> JsVal -> JsVal -> Trace
                  -> Res (list (string * JsVal));
  docker_listContainers : JsVal -> Trace -> Res (list JsVal);
  docker_inspect : JsVal -> Trace -> Res (list (string * JsVal));
  docker_exec_create : JsVal -> JsVal -> Trace -> Res unit;
  docker_exec_start : JsVal -> Trace -> ExecStart;
  docker_exec_inspect : Trace -> Res JsVal;
  ssh_session : JsVal -> JsVal -> Trace -> SshRun
}.

(** ** The effect monad: a trace that grows, and exceptions *)

Definition M (A : Type) : Type := Trace -> Res A * Trace.

Definition ret {A : Type} (a : A) : M A := fun t => (Ok a, t).

Definition throw {A : Type} (e : JsError) : M A := fun t => (Throw e, t).

Definition bind {A B : Type} (m : M A) (k : A -> M B) : M B :=
  fun t =>
    match m t with
    | (Ok a, t') => k a t'
    | (Throw e, t') => (Throw e, t')
    end.

Notation "x <- m ;; k" := (bind m (fun x => k))
  (at level 61, m at next level, right associativity).
Notation "m ;;; k" := (bind m (fun _ => k))
  (at level 61, right associativity).

(** [try { m } catch (error) { h error }] *)
Definition try_catch {A : Type} (m : M A) (h : JsError -> M A) : M A :=
  fun t =>
    match m t with
    | (Ok a, t') => (Ok a, t')
    | (Throw e, t') => h e t'
    end.

(** [try { m } finally { f }]: [f] runs on every path; what [m] gave stands
    unless [f] itself throws. *)
Definition try_finally {A : Type} (m : M A) (f : M unit) : M A :=
  fun t =>
    match m t with
    | (r, t') =>
        match f t' with
        | (Ok _, t'') => (r, t'')
        | (Throw e, t'') => (Throw e, t'')
        end
    end.

Definition emit (ev : Event) : M unit := fun t => (Ok tt, t ++ [ev]).

(** A call to a collaborator: it answers from the trace so far, and the call
    joins the trace. *)
Definition call {A : Type} (ev : Event) (oracle : Trace -> Res A) : M A :=
  fun t => (oracle t, t ++ [ev]).

(** [yields P m]: whatever [m] returns satisfies [P]; a throw is no
    return. *)
Definition yields {A : Type} (P : A -> Prop) (m : M A) : Prop :=
  forall t, match fst (m t) with
            | Ok a => P a
            | Throw _ => True
            end.

(** What [JSON.stringify] turns into text rather than into [undefined]. *)
Definition serializable (v : JsVal) : Prop := is_undefined v = false.

(** A [Buffer] is given in the form its [toJSON] hands to [JSON.stringify],
    the one reader of what a handler returns. *)
Definition file_value (d : FileData) : JsVal :=
  match d with
  | Text s => JStr s
  | Bytes data => JObj [("type", JStr "Buffer"); ("data", JArr (map JNum data))]
  end.

(** [v !== 0] *)
Definition not_zero (v : JsVal) : bool :=
  match v with
  | JNum n => negb (Z.eqb n 0)
  | _ => true
  end.

(** The text of a value that is known to convert; the empty text stands
    where it does not. *)
Definition text_or_empty (v : JsVal) : string :=
  match to_string v with
  | Some text => text
  | None => ""
  end.

(** The items an array spread [...v] yields, where [v] is iterable. *)
Definition iterate (v : JsVal) : option (list JsVal) :=
  match v with
  | JArr items => Some items
  | JStr s => Some (chars s)
  | _ => None
  end.

(** ** The tool *)

Section AgentExecutorLangchainTool.

Variable B : Backend.

(** [new Error(msg)] and the [TypeError] the runtime raises. *)
Definition new_Error (msg : string) : JsError :=
  mkError msg (error_stack B "Error" msg) [].

Definition new_TypeError (msg : string) : JsError :=
  mkError msg (error_stack B "TypeError" msg) [].

(** [undefined] or [null], as the runtime names it in a message. *)
Definition nullish_name (v : JsVal) : string :=
  if is_undefined v then "undefined" else "null".

(** [const { first, ... } = source]: a [TypeError] when the value is [null]
    or [undefined]; the properties are then read with [prop]. *)
Definition destructure_from (source : string) (v : JsVal) (first : string)
  : M unit :=
  if is_nullish v then
    throw (new_TypeError
      ("Cannot destructure property '" ^ first ^ "' of '" ^ source
       ^ "' as it is " ^ nullish_name v ^ "."))
  else ret tt.

Definition destructure (params : JsVal) (first : string) : M unit :=
  destructure_from "params" params first.

(** [params.k] *)
Definition get (params : JsVal) (k : string) : M JsVal :=
  if is_nullish params then
    throw (new_TypeError
      ("Cannot read properties of " ^ nullish_name params
       ^ " (reading '" ^ k ^ "')"))
  else ret (prop params k).

(** The text a template literal puts in the place of [v], or the
    [TypeError] of the conversion. *)
Definition text_of (v : JsVal) : M string :=
  match to_string v with
  | Some text => ret text
  | None => throw (new_TypeError "Cannot convert object to primitive value")
  end.

(** [JSON.stringify(v, null, 2)]: the text, [None] for [undefined], or
    the [TypeError] of a value it refuses. *)
Definition JSON_stringify (v : JsVal) : M (option string) :=
  match serialize "" v with
  | Json text => ret (Some text)
  | NoJson => ret None
  | JsonRefused => throw (new_TypeError "Do not know how to serialize a BigInt")
  end.

Definition console_error (args : list JsVal) (e : JsError) : M unit :=
  emit (ConsoleError args e).

(** *** The [execa] library

    [execa(file, args, options)] runs a child process and returns a
    promise.  How the promise settles is the library's matter and comes
    from the backend: it resolves with a result object, or it rejects with
    an error that carries, beside its message, the properties
    [shortMessage], [stdout], [stderr], [exitCode], [failed], [timedOut]
    and [isCanceled].  By default [execa] rejects when the process exits
    with a status other than 0 and when the process cannot be started. *)

Definition execa (file args options : JsVal) : M JsVal :=
  call (Execa file args options) (fun t =>
    match execa_settles B file args options t with
    | Ok result => Ok (JObj result)
    | Throw e => Throw e
    end).

(** *** [handleExecuteCommand] *)

Definition handleExecuteCommand (params : JsVal) : M JsVal :=
  c <- get params "command" ;;
  if falsy c then
    throw (new_Error
      ("Missing " ^ dq ^ "command" ^ dq ^ " parameter for executeCommand"))
  else
    let command := prop params "command" in
    let args := default_to (JArr []) (prop params "args") in
    let options := default_to (JObj []) (prop params "options") in
    let execaOptions :=
      JObj (obj_set "windowsHide" (JBool true) (spread_into [] options)) in
    try_catch
      (r <- execa command args execaOptions ;;
       ret (JObj [("stdout", prop r "stdout");
                  ("stderr", prop r "stderr");
                  ("exitCode", prop r "exitCode");
                  ("failed", prop r "failed");
                  ("timedOut", prop r "timedOut");
                  ("isCanceled", prop r "isCanceled")]))
      (fun error =>
       ret (JObj [("stdout", error_prop error "stdout");
                  ("stderr", error_prop error "stderr");
                  ("exitCode", error_prop error "exitCode");
                  ("failed", error_prop error "failed");
                  ("timedOut", error_prop error "timedOut");
                  ("isCanceled", error_prop error "isCanceled");
                  ("error", js_or (error_prop error "shortMessage")
                                  (error_prop error "message"))])).

(** *** [handleFilesystem] *)

Definition content_missing : string :=
  "Missing " ^ dq ^ "content" ^ dq ^ " for writeFile".

(** The two success messages are built once the file system has taken the
    path, which it does for a string or a file descriptor only; such a path
    converts to text. *)
Definition handleFilesystem (params : JsVal) : M JsVal :=
  destructure params "operation" ;;;
  let operation := prop params "operation" in
  let path := prop params "path" in
  let content := prop params "content" in
  let encoding := default_to (JStr "utf8") (prop params "encoding") in
  if (falsy operation || falsy path)%bool then
    throw (new_Error
      ("Missing " ^ dq ^ "operation" ^ dq ^ " or " ^ dq ^ "path" ^ dq
       ^ " for filesystem action"))
  else if is_str operation "readFile" then
    d <- call (FsReadFile path encoding) (fs_readFile B path encoding) ;;
    ret (file_value d)
  else if is_str operation "writeFile" then
    if is_undefined content then
      throw (new_Error content_missing)
    else
      call (FsWriteFile path content encoding)
           (fs_writeFile B path content encoding) ;;;
      ret (JObj [("success", JBool true); ("path", path);
                 ("message",
                  JStr ("File " ^ text_or_empty path
                        ^ " written successfully."))])
  else if is_str operation "deleteFile" then
    call (FsRemove path) (fs_remove B path) ;;;
    ret (JObj [("success", JBool true); ("path", path);
               ("message",
                JStr ("Path " ^ text_or_empty path
                      ^ " deleted successfully."))])
  else if is_str operation "listDir" then
    names <- call (FsReaddir path) (fs_readdir B path) ;;
    ret (JArr (map JStr names))
  else if is_str operation "pathExists" then
    b <- call (FsPathExists path) (fs_pathExists B path) ;;
    ret (JObj [("exists", JBool b); ("path", path)])
  else
    text <- text_of operation ;;
    throw (new_Error ("Unsupported filesystem operation: " ^ text)).

(** *** [handleDocker] *)

Definition stderr_placeholder : string :=
  "Error likely occurred (see output, exit code for details)".

(** The ['data'] handler, once per chunk: [stdoutOutput += chunk]. *)
Fixpoint read_stream (chunks : list string) (stdoutOutput : string) : M string :=
  match chunks with
  | [] => ret stdoutOutput
  | chunk :: rest =>
      emit (StreamData chunk) ;;;
      read_stream rest (stdoutOutput ^ chunk)
  end.

(** [Array.isArray(command) ? command : command.split(' ')] *)
Definition exec_cmd (command : JsVal) : M JsVal :=
  match command with
  | JArr _ => ret command
  | JStr s => ret (JArr (map JStr (split_space s)))
  | _ => throw (new_TypeError "command.split is not a function")
  end.

(** [data?.ExitCode] *)
Definition exit_code_of (data : JsVal) : JsVal :=
  if is_nullish data then JUndefined else prop data "ExitCode".

Definition execInContainer (containerId command options : JsVal) : M JsVal :=
  cmd <- exec_cmd command ;;
  let opts :=
    JObj (spread_into [("Cmd", cmd); ("AttachStdout", JBool true);
                       ("AttachStderr", JBool true); ("Tty", JBool false)]
                      options) in
  call (DockerExecCreate containerId opts)
       (docker_exec_create B containerId opts) ;;;
  let startOpts := JObj [("hijack", JBool true); ("stdin", JBool false)] in
  started <- call (DockerExecStart startOpts)
                  (fun t => Ok (docker_exec_start B startOpts t)) ;;
  match started with
  | StartFailed err => throw err
  | NoStream => throw (new_Error "Stream not available for exec")
  | Streaming chunks fin =>
      stdoutOutput <- read_stream chunks "" ;;
      match fin with
      | StreamFailed errStream =>
          emit (StreamError errStream) ;;; throw errStream
      | StreamEnded =>
          emit StreamEnd ;;;
          data <- call DockerExecInspect (docker_exec_inspect B) ;;
          ret (JObj [("output", JStr (trim stdoutOutput));
                     ("stderr",
                      JStr (if not_zero (exit_code_of data)
                            then stderr_placeholder else ""));
                     ("exitCode", exit_code_of data)])
      end
  end.

Definition handleDocker (params : JsVal) : M JsVal :=
  destructure params "operation" ;;;
  let operation := prop params "operation" in
  let containerId := prop params "containerId" in
  let command := prop params "command" in
  let options := default_to (JObj []) (prop params "options") in
  let listAll := default_to (JBool false) (prop params "listAll") in
  if falsy operation then
    throw (new_Error
      ("Missing " ^ dq ^ "operation" ^ dq ^ " for docker action"))
  else if is_str operation "listContainers" then
    let opts := JObj [("all", listAll)] in
    l <- call (DockerListContainers opts) (docker_listContainers B opts) ;;
    ret (JArr l)
  else if is_str operation "inspectContainer" then
    if falsy containerId then
      throw (new_Error
        ("Missing " ^ dq ^ "containerId" ^ dq ^ " for inspectContainer"))
    else
      d <- call (DockerInspectContainer containerId)
                (docker_inspect B containerId) ;;
      ret (JObj d)
  else if is_str operation "execInContainer" then
    if (falsy containerId || falsy command)%bool then
      throw (new_Error
        ("Missing " ^ dq ^ "containerId" ^ dq ^ " or " ^ dq ^ "command" ^ dq
         ^ " for execInContainer"))
    else execInContainer containerId command options
  else
    text <- text_of operation ;;
    throw (new_Error ("Unsupported docker operation: " ^ text)).

(** *** [handleSsh] *)

Definition ssh_missing : string :=
  "Missing required SSH parameters (host, username, auth method, command)".

(** [privateKey ? (typeof privateKey === 'string' ? privateKey
                   : privateKey.toString('utf8')) : undefined].
    A number and a BigInt take the argument of [toString] for a radix and
    throw; an object with an own [toString] has nothing to call; an array
    joins the conversions of its items. *)
Definition private_key_text (privateKey : JsVal) : M JsVal :=
  if truthy privateKey then
    match privateKey with
    | JStr _ => ret privateKey
    | JNum _ | JBigInt _ =>
        throw (mkError "toString() radix must be between 2 and 36"
                 (error_stack B "RangeError"
                    "toString() radix must be between 2 and 36") [])
    | JObj _ =>
        match to_string privateKey with
        | Some text => ret (JStr text)
        | None => throw (new_TypeError "privateKey.toString is not a function")
        end
    | _ => text <- text_of privateKey ;; ret (JStr text)
    end
  else ret JUndefined.

Definition handleSsh (params : JsVal) : M JsVal :=
  destructure params "host" ;;;
  let host := prop params "host" in
  let port := default_to (JNum 22) (prop params "port") in
  let username := prop params "username" in
  let password := prop params "password" in
  let privateKey := prop params "privateKey" in
  let command := prop params "command" in
  if (falsy host || falsy username || (falsy password && falsy privateKey)
      || falsy command)%bool then
    throw (new_Error ssh_missing)
  else
    key <- private_key_text privateKey ;;
    let config := JObj [("host", host); ("port", port);
                        ("username", username); ("password", password);
                        ("privateKey", key)] in
    session <- call (SshConnect config)
                    (fun t => Ok (ssh_session B config command t)) ;;
    match session with
    | ConnectFailed err => throw err
    | ExecFailed err =>
        emit (SshExec command) ;;; emit SshEnd ;;; throw err
    | LateError err =>
        emit (SshExec command) ;;; throw err
    | Closed out err code signal =>
        emit (SshExec command) ;;;
        emit SshEnd ;;;
        ret (JObj [("output", JStr (trim (String.concat "" out)));
                   ("stderr", JStr (trim (String.concat "" err)));
                   ("code", code); ("signal", signal)])
    end.

(** *** [handlePythonScript] *)

Definition script_missing : string :=
  "Missing " ^ dq ^ "scriptContent" ^ dq ^ " (direct script) or " ^ dq
  ^ "scriptPath" ^ dq ^ " for pythonScript action".

Definition temp_script_path (now : Z) : string :=
  "/tmp/flowise_python_script_" ^ show_Z now ^ ".py".

(** [[finalScriptPath, ...args]] *)
Definition script_argv (finalScriptPath args : JsVal) : M JsVal :=
  match iterate args with
  | Some items => ret (JArr (finalScriptPath :: items))
  | None => throw (new_TypeError "args is not iterable")
  end.

(** The part before the [try]: the pair of [finalScriptPath] and
    [tempScriptWritten]. *)
Definition stage_script (scriptContent scriptPath : JsVal) : M (JsVal * bool) :=
  if truthy scriptContent then
    now <- (fun t => (Ok (date_now B t), t ++ [DateNow (date_now B t)])) ;;
    let finalScriptPath := JStr (temp_script_path now) in
    call (FsWriteFile finalScriptPath scriptContent JUndefined)
         (fs_writeFile B finalScriptPath scriptContent JUndefined) ;;;
    ret (finalScriptPath, true)
  else ret (scriptPath, false).

Definition handlePythonScript (params : JsVal) : M JsVal :=
  destructure params "scriptContent" ;;;
  let scriptContent := prop params "scriptContent" in
  let scriptPath := prop params "scriptPath" in
  let args := default_to (JArr []) (prop params "args") in
  staged <- stage_script scriptContent scriptPath ;;
  let finalScriptPath := fst staged in
  let tempScriptWritten := snd staged in
  if falsy finalScriptPath then throw (new_Error script_missing)
  else
    try_finally
      (try_catch
         (argv <- script_argv finalScriptPath args ;;
          r <- execa (JStr "python3") argv JUndefined ;;
          ret (JObj [("stdout", prop r "stdout");
                     ("stderr", prop r "stderr");
                     ("exitCode", prop r "exitCode")]))
         (fun error =>
          ret (JObj [("stdout", error_prop error "stdout");
                     ("stderr", error_prop error "stderr");
                     ("exitCode", error_prop error "exitCode");
                     ("error", js_or (error_prop error "shortMessage")
                                     (error_prop error "message"))])))
      (if (tempScriptWritten && truthy finalScriptPath)%bool then
         try_catch
           (call (FsRemove finalScriptPath) (fs_remove B finalScriptPath))
           (fun e =>
            console_error
              [JStr "Failed to cleanup temp python script:"; finalScriptPath] e)
       else ret tt).

(** *** [_call] *)

(** The argument of [_call]: any value; its type promises an object with
    the two properties. *)
Definition Inputs : Type := JsVal.

Definition mkInputs (actionType actionParams : JsVal) : Inputs :=
  JObj [("actionType", actionType); ("actionParams", actionParams)].

Definition actionType (inputs : Inputs) : JsVal := prop inputs "actionType".
Definition actionParams (inputs : Inputs) : JsVal := prop inputs "actionParams".

(** The [switch] over [actionType]. *)
Definition dispatch (inputs : Inputs) : M JsVal :=
  let kind := actionType inputs in
  let params := actionParams inputs in
  if is_str kind "filesystem" then handleFilesystem params
  else if is_str kind "executeCommand" then handleExecuteCommand params
  else if is_str kind "docker" then handleDocker params
  else if is_str kind "ssh" then handleSsh params
  else if is_str kind "pythonScript" then handlePythonScript params
  else
    text <- text_of kind ;;
    throw (new_Error ("Unsupported actionType: " ^ text)).

(** The object the [catch] block serializes. *)
Definition error_result (error : JsError) (inputs : Inputs) : JsVal :=
  JObj [("error", error_prop error "message");
        ("details", error_prop error "stack");
        ("actionType", actionType inputs);
        ("actionParams", actionParams inputs)].

(** The destructuring of [inputs] comes before the [try]; the [catch]
    block builds the label of its log line and serializes the error result,
    and what either of them throws leaves [_call].  The value is [None]
    where [JSON.stringify] gives [undefined]. *)
Definition _call (inputs : Inputs) : M (option string) :=
  destructure_from "inputs" inputs "actionType" ;;;
  try_catch
    (result <- dispatch inputs ;;
     JSON_stringify result)
    (fun error =>
     label <- text_of (actionType inputs) ;;
     console_error
       [JStr ("Error in AgentExecutorLangchainTool (" ^ label ^ "):")] error ;;;
     JSON_stringify (error_result error inputs)).

End AgentExecutorLangchainTool.

(** ** Backends for the examples *)

Definition sample_stack (name msg : string) : string :=
  name ^ ": " ^ msg ^ nl ^ "    at AgentExecutorLangchainTool._call".

Definition io_error (msg : string) : JsError :=
  mkError msg (sample_stack "Error" msg) [].

(** A child process that starts and exits. *)
Inductive ProcessRun : Type :=
| Exited (code : Z) (out err : string).

(** [[file, ...args].join(' ')], the command line in a message of [execa]. *)
Definition command_line (file args : JsVal) : string :=
  join " " (text_or_empty file ::
            match args with
            | JArr items => map text_or_empty items
            | _ => []
            end).

Definition execa_fields (out err : string) (exitCode : JsVal)
    (failed timedOut : bool) : list (string * JsVal) :=
  [("stdout", JStr out); ("stderr", JStr err); ("exitCode", exitCode);
   ("failed", JBool failed); ("timedOut", JBool timedOut);
   ("isCanceled", JBool false)].

(** How [execa], with its [reject] option at the default, settles for a
    process that exits: it resolves on status 0 and rejects on any other
    status, with the short message made of the status and the command
    line, and a message that adds what the process wrote. *)
Definition process_settles (proc : ProcessRun) (file args : JsVal)
  : Res (list (string * JsVal)) :=
  match proc with
  | Exited code out err =>
      if Z.eqb code 0 then Ok (execa_fields out err (JNum 0) false false)
      else
        let shortMessage :=
          "Command failed with exit code " ^ show_Z code ^ ": "
          ^ command_line file args in
        let msg :=
          join nl (filter (fun s => negb (String.eqb s ""))
                     [shortMessage; err; out]) in
        Throw (mkError msg (sample_stack "Error" msg)
                 (("shortMessage", JStr shortMessage)
                    :: execa_fields out err (JNum code) true false))
  end.

(** How [execa] settles for a process that cannot be started: it rejects,
    and its short message ends in the message of the system error. *)
Definition start_fails (errno : string) (file args : JsVal)
  : Res (list (string * JsVal)) :=
  let shortMessage :=
    "Command failed with " ^ errno ^ ": " ^ command_line file args ^ nl
    ^ "spawn " ^ text_or_empty file ^ " " ^ errno in
  Throw (mkError shortMessage (sample_stack "Error" shortMessage)
           (("shortMessage", JStr shortMessage)
              :: execa_fields "" "" JUndefined true false)).

(** A machine where every call succeeds: files hold [abc], a process exits
    as [proc] says, the exec stream delivers two chunks and the inspect call
    reports [exitCode], and removing a file goes as [cleanup] says. *)
Definition sample_backend (proc : ProcessRun) (cleanup : Res unit)
    (exitCode : JsVal) : Backend :=
  {| error_stack := sample_stack;
     date_now := fun _ => 1700000000000%Z;
     fs_readFile := fun _ _ _ => Ok (Text "abc");
     fs_writeFile := fun _ _ _ _ => Ok tt;
     fs_remove := fun _ _ => cleanup;
     fs_readdir := fun _ _ => Ok ["a.txt"; "b.txt"];
     fs_pathExists := fun _ _ => Ok true;
     execa_settles := fun file args _ _ => process_settles proc file args;
     docker_listContainers := fun _ _ => Ok [];
     docker_inspect := fun _ _ => Ok [("Id", JStr "c0ffee")];
     docker_exec_create := fun _ _ _ => Ok tt;
     docker_exec_start := fun _ _ =>
       Streaming [" total 0" ^ nl; "ls: cannot access" ^ nl] StreamEnded;
     docker_exec_inspect := fun _ => Ok (JObj [("ExitCode", exitCode)]);
     ssh_session := fun _ _ _ => Closed ["ok" ^ nl] [] (JNum 0) JUndefined |}.

Definition quiet : Backend :=
  sample_backend (Exited 0 "done" "") (Ok tt) (JNum 0).

(** [B] with another answer to [fs.remove]. *)
Definition with_fs_remove (B : Backend) (f : JsVal -> Trace -> Res unit)
  : Backend :=
  {| error_stack := error_stack B;
     date_now := date_now B;
     fs_readFile := fs_readFile B;
     fs_writeFile := fs_writeFile B;
     fs_remove := f;
     fs_readdir := fs_readdir B;
     fs_pathExists := fs_pathExists B;
     execa_settles := execa_settles B;
     docker_listContainers := docker_listContainers B;
     docker_inspect := docker_inspect B;
     docker_exec_create := docker_exec_create B;
     docker_exec_start := docker_exec_start B;
     docker_exec_inspect := docker_exec_inspect B;
     ssh_session := ssh_session B |}.

(** [B] with another answer to [exec.start]. *)
Definition with_exec_start (B : Backend) (f : JsVal -> Trace -> ExecStart)
  : Backend :=
  {| error_stack := error_stack B;
     date_now := date_now B;
     fs_readFile := fs_readFile B;
     fs_writeFile := fs_writeFile B;
     fs_remove := fs_remove B;
     fs_readdir := fs_readdir B;
     fs_pathExists := fs_pathExists B;
     execa_settles := execa_settles B;
     docker_listContainers := docker_listContainers B;
     docker_inspect := docker_inspect B;
     docker_exec_create := docker_exec_create B;
     docker_exec_start := f;
     docker_exec_inspect := docker_exec_inspect B;
     ssh_session := ssh_session B |}.

(** [B] with another settlement of [execa]. *)
Definition with_execa (B : Backend)
    (f : JsVal -> JsVal -> JsVal -> Trace -> Res (list (string * JsVal)))
  : Backend :=
  {| error_stack := error_stack B;
     date_now := date_now B;
     fs_readFile := fs_readFile B;
     fs_writeFile := fs_writeFile B;
     fs_remove := fs_remove B;
     fs_readdir := fs_readdir B;
     fs_pathExists := fs_pathExists B;
     execa_settles := f;
     docker_listContainers := docker_listContainers B;
     docker_inspect := docker_inspect B;
     docker_exec_create := docker_exec_create B;
     docker_exec_start := docker_exec_start B;
     docker_exec_inspect := docker_exec_inspect B;
     ssh_session := ssh_session B |}.


(** ** The Flowise node: [AgentExecutorNode_FlowiseWrapper] *)

(** An entry of an [options] list of the node's form. *)
Record INodeOptionsValue : Type := mkOption {
  option_label : string;
  option_name : string
}.

Definition actionTypeOptions : list INodeOptionsValue :=
  [mkOption "Filesystem" "filesystem";
   mkOption "Execute Command" "executeCommand";
   mkOption "Docker Operation" "docker";
   mkOption "SSH Command" "ssh";
   mkOption "Python Script" "pythonScript"].

(** The options of the [fsOperation] input. *)
Definition fsOperationOptions : list INodeOptionsValue :=
  [mkOption "Read File" "readFile";
   mkOption "Write File" "writeFile";
   mkOption "Delete Path" "deleteFile";
   mkOption "List Directory" "listDir";
   mkOption "Path Exists" "pathExists"].

(** The options of the [dockerOperation] input. *)
Definition dockerOperationOptions : list INodeOptionsValue :=
  [mkOption "List Containers" "listContainers";
   mkOption "Inspect Container" "inspectContainer";
   mkOption "Exec in Container" "execInContainer"].

Section AgentExecutorNode_FlowiseWrapper.

Variable B : Backend.

(** [JSON.parse], the built-in: a value, or the [SyntaxError] it throws. *)
Variable JSON_parse : string -> Res JsVal.

(** [nodeData.inputs?.k] *)
Definition input_of (nodeData : JsVal) (k : string) : JsVal :=
  if is_nullish (prop nodeData "inputs") then JUndefined
  else prop (prop nodeData "inputs") k.

(** The local function [parseJsonInput] of [init]. *)
Definition parseJsonInput (input : JsVal) (fieldName : string) : M JsVal :=
  if is_nullish input then ret JUndefined
  else
    match input with
    | JStr s =>
        if String.eqb (trim s) "" then ret JUndefined
        else
          try_catch
            (fun t => (JSON_parse s, t))
            (fun e =>
             throw (new_Error B
               ("Invalid JSON in " ^ fieldName ^ ": " ^ message e
                ^ ". Input was: " ^ dq ^ s ^ dq)))
    | _ => ret input
    end.

(** [target[k] = v] in strict mode: a property of an object is set; an
    array takes the property beside its items; a primitive refuses it. *)
Definition assign (target : JsVal) (k : string) (v : JsVal) : M JsVal :=
  match target with
  | JObj fields => ret (JObj (obj_set k v fields))
  | JArr _ => ret target
  | _ =>
      throw (new_TypeError B
        ("Cannot create property '" ^ k ^ "' on " ^ text_or_empty target))
  end.

(** The [switch] of [init]: the [actionParams] object it assembles, as the
    list of its properties in the order of assignment. *)
Definition assemble (nodeData : JsVal) : M (list (string * JsVal)) :=
  let actionType := input_of nodeData "actionType" in
  if is_str actionType "filesystem" then
    let operation := input_of nodeData "fsOperation" in
    let p1 := obj_set "operation" operation [] in
    let p2 := obj_set "path" (input_of nodeData "fsPath") p1 in
    let p3 :=
      if is_str operation "writeFile"
      then obj_set "content" (input_of nodeData "fsContent") p2 else p2 in
    let p4 :=
      if (truthy (input_of nodeData "fsEncoding")
          && (is_str operation "readFile" || is_str operation "writeFile"))%bool
      then obj_set "encoding" (input_of nodeData "fsEncoding") p3 else p3 in
    ret p4
  else if is_str actionType "executeCommand" then
    let p1 := obj_set "command" (input_of nodeData "execCommand") [] in
    args <- parseJsonInput (input_of nodeData "execArgs") "Exec Arguments" ;;
    let p2 := obj_set "args" (js_or args (JArr [])) p1 in
    options <- parseJsonInput (input_of nodeData "execOptions") "Exec Options" ;;
    ret (obj_set "options" (js_or options (JObj [])) p2)
  else if is_str actionType "docker" then
    let operation := input_of nodeData "dockerOperation" in
    let p1 := obj_set "operation" operation [] in
    let p2 :=
      if is_str operation "listContainers"
      then obj_set "listAll" (input_of nodeData "dockerListAll") p1 else p1 in
    let p3 :=
      if (is_str operation "inspectContainer"
          || is_str operation "execInContainer")%bool
      then obj_set "containerId" (input_of nodeData "dockerContainerId") p2
      else p2 in
    if is_str operation "execInContainer" then
      let cmdInput := input_of nodeData "dockerCommand" in
      let command :=
        if truthy cmdInput then
          match to_string cmdInput with
          | Some text =>
              match JSON_parse text with
              | Ok parsed => parsed
              | Throw _ => cmdInput
              end
          | None => cmdInput
          end
        else JArr [] in
      let p4 := obj_set "command" command p3 in
      options <- parseJsonInput (input_of nodeData "dockerExecOptions")
                   "Docker Exec Options" ;;
      ret (obj_set "options" (js_or options (JObj [])) p4)
    else ret p3
  else if is_str actionType "ssh" then
    ret (obj_set "command" (input_of nodeData "sshCommand")
        (obj_set "privateKey" (input_of nodeData "sshPrivateKey")
        (obj_set "password" (input_of nodeData "sshPassword")
        (obj_set "username" (input_of nodeData "sshUsername")
        (obj_set "port" (js_or (input_of nodeData "sshPort") (JNum 22))
        (obj_set "host" (input_of nodeData "sshHost") []))))))
  else if is_str actionType "pythonScript" then
    let p1 := obj_set "scriptContent" (input_of nodeData "pythonScriptContent") [] in
    let p2 := obj_set "scriptPath" (input_of nodeData "pythonScriptPath") p1 in
    args <- parseJsonInput (input_of nodeData "pythonArgs") "Python Arguments" ;;
    ret (obj_set "args" (js_or args (JArr [])) p2)
  else
    text <- text_of B actionType ;;
    throw (new_Error B ("Unknown actionType in init: " ^ text)).

(** [init]: the value is the node data as [init] leaves it.  The tool
    instance it returns besides holds no data. *)
Definition init (nodeData : JsVal) : M JsVal :=
  get B nodeData "inputs" ;;;
  actionParams <- assemble nodeData ;;
  if truthy (prop nodeData "inputs") then
    inputs <- assign (prop nodeData "inputs") "actionParams" (JObj actionParams) ;;
    assign nodeData "inputs" inputs
  else
    assign nodeData "inputs"
      (JObj [("actionParams", JObj actionParams);
             ("actionType", input_of nodeData "actionType")]).

End AgentExecutorNode_FlowiseWrapper.

(** ** Vocabulary of the properties *)

(** [appends P m]: [m] keeps the trace it is given and adds to it only
    events that satisfy [P]. *)
Definition appends {A : Type} (P : Event -> Prop) (m : M A) : Prop :=
  forall t, exists added, snd (m t) = t ++ added /\ Forall P added.

(** The events a request of the given kind may cause. *)
Definition touches (kind : JsVal) (ev : Event) : bool :=
  match ev with
  | FsReadFile _ _ | FsReaddir _ | FsPathExists _ => is_str kind "filesystem"
  | FsWriteFile _ _ _ | FsRemove _ =>
      (is_str kind "filesystem" || is_str kind "pythonScript")%bool
  | Execa _ _ _ =>
      (is_str kind "executeCommand" || is_str kind "pythonScript")%bool
  | DateNow _ | ConsoleError _ _ => is_str kind "pythonScript"
  | DockerListContainers _ | DockerInspectContainer _ | DockerExecCreate _ _
  | DockerExecStart _ | StreamData _ | StreamEnd | StreamError _
  | DockerExecInspect => is_str kind "docker"
  | SshConnect _ | SshExec _ | SshEnd => is_str kind "ssh"
  end.

(** [v] is the name of one of the options. *)
Definition offered (options : list INodeOptionsValue) (v : JsVal) : bool :=
  existsb (fun o => is_str v (option_name o)) options.

(** No character of [w] is a space. *)
Definition spaceless (w : string) : Prop :=
  forall c, In c (list_ascii_of_string w) -> c <> " "%char.

(** A form field left blank: absent, or a string of white space only. *)
Definition is_blank (v : JsVal) : bool :=
  match v with
  | JUndefined | JNull => true
  | JStr s => String.eqb (trim s) ""
  | _ => false
  end.

(** A [JSON.parse] for the examples: it knows the empty array, the array
    of [ls] and [-la], and one number, and rejects everything else. *)
Definition sample_parse (s : string) : Res JsVal :=
  if String.eqb s "[]" then Ok (JArr [])
  else if String.eqb s ("[" ^ dq ^ "ls" ^ dq ^ ", " ^ dq ^ "-la" ^ dq ^ "]")
  then Ok (JArr [JStr "ls"; JStr "-la"])
  else if String.eqb s "2222" then Ok (JNum 2222)
  else Throw (mkError "Unexpected token" (sample_stack "SyntaxError" "Unexpected token") []).

(** * Properties *)

(** ** The value model by example *)

Example truthy_values :
  map truthy [JUndefined; JNull; JBool false; JNum 0; JStr ""; JBigInt 0;
              JStr "0"; JNum 22; JArr []; JObj []; JBigInt 1]
  = [false; false; false; false; false; false;
     true; true; true; true; true].
Proof. reflexivity. Qed.

Example stringify_object :
  JSON_text
    (JObj [("exists", JBool true); ("missing", JUndefined);
           ("names", JArr [JStr "a"; JUndefined]); ("code", JNum (-2))])
  = Some ("{" ^ nl
          ^ "  " ^ dq ^ "exists" ^ dq ^ ": true," ^ nl
          ^ "  " ^ dq ^ "names" ^ dq ^ ": [" ^ nl
          ^ "    " ^ dq ^ "a" ^ dq ^ "," ^ nl
          ^ "    null" ^ nl
          ^ "  ]," ^ nl
          ^ "  " ^ dq ^ "code" ^ dq ^ ": -2" ^ nl
          ^ "}").
Proof. reflexivity. Qed.

(** The quote becomes backslash-quote, the line feed backslash-n. *)
Example stringify_escapes :
  JSON_text (JStr ("a" ^ dq ^ nl ^ "b"))
  = Some (dq ^ "a\" ^ dq ^ "\nb" ^ dq).
Proof. reflexivity. Qed.

Example stringify_undefined : serialize "" JUndefined = NoJson.
Proof. reflexivity. Qed.

(** A BigInt is refused wherever it sits. *)
Example stringify_bigint :
  serialize "" (JObj [("path", JStr "/tmp"); ("ids", JArr [JNum 1; JBigInt 2])])
  = JsonRefused.
Proof. reflexivity. Qed.

Example trim_and_split :
  trim ("  ps aux " ^ nl) = "ps aux" /\
  split_space "ps  aux" = ["ps"; ""; "aux"].
Proof. split; reflexivity. Qed.

(** U+00A0 and U+FEFF are white space to [trim]; U+00E9 is not. *)
Example trim_unicode :
  let nbsp := String "194" (String "160" "") in
  let bom := String "239" (String "187" (String "191" "")) in
  let e_acute := String "195" (String "169" "") in
  trim (bom ^ nbsp ^ "caf" ^ e_acute ^ " " ^ nbsp) = "caf" ^ e_acute /\
  trim (nbsp ^ bom) = "".
Proof. split; reflexivity. Qed.

(** Spreading a string gives its characters, not its bytes. *)
Example spread_of_text :
  let e_acute := String "195" (String "169" "") in
  chars ("a" ^ e_acute ^ "b") = [JStr "a"; JStr e_acute; JStr "b"].
Proof. reflexivity. Qed.

Example template_text :
  to_string (JArr [JNum 1; JNull; JArr [JStr "a"; JBool true]; JObj []])
  = Some "1,,a,true,[object Object]".
Proof. reflexivity. Qed.

(** An own [toString] that is no function leaves nothing to convert with. *)
Example template_throws :
  to_string (JObj [("toString", JNum 1)]) = None /\
  to_string (JArr [JStr "a"; JObj [("toString", JNum 1)]]) = None.
Proof. split; reflexivity. Qed.

Example spread_overrides_in_place :
  spread_into [("Cmd", JStr "ls"); ("Tty", JBool false)]
              (JObj [("User", JStr "root"); ("Tty", JBool true)])
  = [("Cmd", JStr "ls"); ("Tty", JBool true); ("User", JStr "root")].
Proof. reflexivity. Qed.

(** ** Traces and the monad *)


Lemma execa_trace B file args options t :
  snd (execa B file args options t) = t ++ [Execa file args options].
Proof. reflexivity. Qed.

Lemma falsy_undefined : falsy JUndefined = true.
Proof. reflexivity. Qed.

Lemma truthy_not_falsy v : truthy v = true -> falsy v = false.
Proof. unfold falsy. intros ->. reflexivity. Qed.

Lemma prop_nullish v k : is_nullish v = true -> prop v k = JUndefined.
Proof. destruct v; simpl; intros; try discriminate; reflexivity. Qed.

Lemma prop_defined_not_nullish v k : prop v k <> JUndefined -> is_nullish v = false.
Proof.
  intros H. destruct (is_nullish v) eqn:E; [|reflexivity].
  exfalso. apply H. now apply prop_nullish.
Qed.

(** ** The SSH handler validates before it connects *)

(** C6.  A remote-shell request that supplies neither [password] nor
    [privateKey] makes [handleSsh] throw and leaves the trace as it was: no
    connection is attempted.  When the parameters are an object the error is
    the validation error [ssh_missing] (on [null] or [undefined]
    parameters the destructuring throws first). *)
Theorem ssh_without_credentials_fails_before_connect
    (B : Backend) (params : JsVal) (t : Trace) :
  prop params "password" = JUndefined ->
  prop params "privateKey" = JUndefined ->
  exists e,
    handleSsh B params t = (Throw e, t) /\
    (is_nullish params = false -> e = new_Error B ssh_missing).
Proof.
  intros Hpw Hkey.
  unfold handleSsh, bind, destructure, destructure_from.
  destruct (is_nullish params) eqn:Hnull.
  - eexists. split; [reflexivity | discriminate].
  - cbn [ret]. rewrite Hpw, Hkey, falsy_undefined.
    exists (new_Error B ssh_missing). split; [|reflexivity].
    destruct (falsy (prop params "host")), (falsy (prop params "username"));
      reflexivity.
Qed.

Lemma ssh_without_credentials_witness :
  exists e,
    handleSsh quiet
      (JObj [("host", JStr "example.org"); ("username", JStr "root");
             ("command", JStr "uptime")]) [] = (Throw e, []) /\
    e = new_Error quiet ssh_missing.
Proof.
  destruct (ssh_without_credentials_fails_before_connect quiet
              (JObj [("host", JStr "example.org"); ("username", JStr "root");
                     ("command", JStr "uptime")]) [])
    as [e [Hrun Herr]]; [reflexivity | reflexivity |].
  exists e. split; [exact Hrun | apply Herr; reflexivity].
Defined.

(** C10.  The checks of [handleSsh] are falsy-checks: an empty [password]
    together with an absent or empty [privateKey] counts as no
    authentication at all, and an empty [host], [username] or [command]
    counts as missing.  In each case the validation error is thrown and the
    trace is left as it was, so nothing was connected. *)
Theorem ssh_empty_strings_count_as_missing
    (B : Backend) (params : JsVal) (t : Trace) :
  is_nullish params = false ->
  (prop params "password" = JStr "" /\
     (prop params "privateKey" = JUndefined \/
      prop params "privateKey" = JStr ""))
  \/ prop params "host" = JStr ""
  \/ prop params "username" = JStr ""
  \/ prop params "command" = JStr "" ->
  handleSsh B params t = (Throw (new_Error B ssh_missing), t).
Proof.
  intros Hnull Hcase.
  unfold handleSsh, bind, destructure, destructure_from. rewrite Hnull. cbn [ret].
  assert (Hcond :
    (falsy (prop params "host") || falsy (prop params "username")
     || (falsy (prop params "password") && falsy (prop params "privateKey"))
     || falsy (prop params "command"))%bool = true).
  { destruct Hcase as [[Hpw Hkey] | [Hh | [Hu | Hc]]].
    - rewrite Hpw. destruct Hkey as [-> | ->];
        cbn [falsy truthy negb String.eqb andb];
        rewrite ?orb_true_r; reflexivity.
    - rewrite Hh. reflexivity.
    - rewrite Hu. cbn. rewrite ?orb_true_r. reflexivity.
    - rewrite Hc. cbn. rewrite ?orb_true_r. reflexivity. }
  rewrite Hcond. reflexivity.
Qed.

Lemma ssh_empty_password_witness :
  handleSsh quiet
    (JObj [("host", JStr "example.org"); ("username", JStr "root");
           ("password", JStr ""); ("command", JStr "uptime")]) []
  = (Throw (new_Error quiet ssh_missing), []).
Proof.
  apply ssh_empty_strings_count_as_missing; [reflexivity |].
  left. split; [reflexivity | left; reflexivity].
Defined.

(** ** The script handler: what counts as a supplied script *)

(** C7.  A script request with neither [scriptContent] nor [scriptPath]
    makes [handlePythonScript] throw and leaves the trace as it was: no
    process was spawned and no temporary file was written.  When the
    parameters are an object the error is the validation error
    [script_missing]. *)
Theorem script_without_source_fails_first
    (B : Backend) (params : JsVal) (t : Trace) :
  prop params "scriptContent" = JUndefined ->
  prop params "scriptPath" = JUndefined ->
  exists e,
    handlePythonScript B params t = (Throw e, t) /\
    (is_nullish params = false -> e = new_Error B script_missing).
Proof.
  intros Hcontent Hpath.
  unfold handlePythonScript, bind, destructure, destructure_from.
  destruct (is_nullish params) eqn:Hnull.
  - eexists. split; [reflexivity | discriminate].
  - cbn [ret]. unfold stage_script. rewrite Hcontent, Hpath. cbn.
    eexists. split; reflexivity.
Qed.

Lemma script_without_source_witness :
  exists e,
    handlePythonScript quiet (JObj [("args", JArr [JStr "-v"])]) []
      = (Throw e, []) /\
    e = new_Error quiet script_missing.
Proof.
  destruct (script_without_source_fails_first quiet
              (JObj [("args", JArr [JStr "-v"])]) [])
    as [e [Hrun Herr]]; [reflexivity | reflexivity |].
  exists e. split; [exact Hrun | apply Herr; reflexivity].
Defined.

(** With no script content to stage, the handler is the interpreter call on
    [scriptPath], or the validation error. *)
Lemma script_unstaged B params t :
  is_nullish params = false ->
  truthy (prop params "scriptContent") = false ->
  handlePythonScript B params t =
    if falsy (prop params "scriptPath") then (Throw (new_Error B script_missing), t)
    else
      match iterate (default_to (JArr []) (prop params "args")) with
      | Some items =>
          let argv := JArr (prop params "scriptPath" :: items) in
          (match fst (execa B (JStr "python3") argv JUndefined t) with
           | Ok r => Ok (JObj [("stdout", prop r "stdout");
                               ("stderr", prop r "stderr");
                               ("exitCode", prop r "exitCode")])
           | Throw error =>
               Ok (JObj [("stdout", error_prop error "stdout");
                         ("stderr", error_prop error "stderr");
                         ("exitCode", error_prop error "exitCode");
                         ("error", js_or (error_prop error "shortMessage")
                                         (error_prop error "message"))])
           end,
           t ++ [Execa (JStr "python3") argv JUndefined])
      | None =>
          (Ok (JObj [("stdout", JUndefined); ("stderr", JUndefined);
                     ("exitCode", JUndefined);
                     ("error", JStr "args is not iterable")]), t)
      end.
Proof.
  intros Hnull Hcontent.
  unfold handlePythonScript, bind, destructure, destructure_from, stage_script.
  rewrite Hnull, Hcontent. cbn [ret fst snd].
  destruct (falsy (prop params "scriptPath")); [reflexivity|].
  unfold try_finally, try_catch, script_argv, bind. cbn [andb].
  destruct (iterate (default_to (JArr []) (prop params "args"))) as [items|];
    [|reflexivity].
  cbn [ret throw].
  destruct (execa B (JStr "python3") (JArr (prop params "scriptPath" :: items))
              JUndefined t) as [[r|e] t'] eqn:Hexeca;
    pose proof (execa_trace B (JStr "python3")
                  (JArr (prop params "scriptPath" :: items)) JUndefined t) as Ht;
    rewrite Hexeca in Ht; cbn [snd] in Ht; subst t'; reflexivity.
Qed.

(** C9.  An empty [scriptContent] is treated as an absent one: the handler
    does what it does for the same request without [scriptContent]; it
    adds no [fs.writeFile] and no [fs.remove] to the trace; with a
    [scriptPath] present it runs the interpreter on that path; with none it
    throws the missing-input validation error before doing anything. *)
Theorem empty_script_content_is_absent
    (B : Backend) (params : JsVal) (t : Trace) :
  prop params "scriptContent" = JStr "" ->
  (forall params',
      is_nullish params' = false ->
      prop params' "scriptContent" = JUndefined ->
      prop params' "scriptPath" = prop params "scriptPath" ->
      prop params' "args" = prop params "args" ->
      handlePythonScript B params' t = handlePythonScript B params t) /\
  (exists added,
      snd (handlePythonScript B params t) = t ++ added /\
      forall ev, In ev added ->
        match ev with
        | FsWriteFile _ _ _ | FsRemove _ => False
        | _ => True
        end) /\
  (truthy (prop params "scriptPath") = true ->
   forall items,
     iterate (default_to (JArr []) (prop params "args")) = Some items ->
     snd (handlePythonScript B params t) =
       t ++ [Execa (JStr "python3") (JArr (prop params "scriptPath" :: items))
               JUndefined]) /\
  (truthy (prop params "scriptPath") = false ->
   handlePythonScript B params t = (Throw (new_Error B script_missing), t)).
Proof.
  intros Hcontent.
  assert (Hnull : is_nullish params = false).
  { apply (prop_defined_not_nullish params "scriptContent").
    rewrite Hcontent. discriminate. }
  assert (Hfalse : truthy (prop params "scriptContent") = false)
    by (rewrite Hcontent; reflexivity).
  pose proof (script_unstaged B params t Hnull Hfalse) as Hrun.
  repeat split.
  - intros params' Hnull' Hc' Hp' Ha'.
    rewrite Hrun, (script_unstaged B params' t Hnull').
    + rewrite Hp', Ha'. reflexivity.
    + rewrite Hc'. reflexivity.
  - rewrite Hrun.
    destruct (falsy (prop params "scriptPath")).
    + exists []. split; [symmetry; apply app_nil_r | intros ev []].
    + destruct (iterate (default_to (JArr []) (prop params "args")))
        as [items|].
      * eexists. split; [reflexivity|].
        intros ev [<- | []]. exact I.
      * exists []. split; [symmetry; apply app_nil_r | intros ev []].
  - intros Hpath items Hitems. rewrite Hrun.
    rewrite (truthy_not_falsy _ Hpath), Hitems. reflexivity.
  - intros Hpath. rewrite Hrun. unfold falsy. rewrite Hpath. reflexivity.
Qed.

Lemma empty_script_content_witness :
  snd (handlePythonScript quiet
         (JObj [("scriptContent", JStr ""); ("scriptPath", JStr "/app/job.py");
                ("args", JArr [JStr "7"])]) [])
    = [Execa (JStr "python3") (JArr [JStr "/app/job.py"; JStr "7"]) JUndefined]
  /\ handlePythonScript quiet (JObj [("scriptContent", JStr "")]) []
    = (Throw (new_Error quiet script_missing), []).
Proof.
  split.
  - destruct (empty_script_content_is_absent quiet
                (JObj [("scriptContent", JStr "");
                       ("scriptPath", JStr "/app/job.py");
                       ("args", JArr [JStr "7"])]) [] eq_refl)
      as [_ [_ [Hpath _]]].
    apply (Hpath eq_refl [JStr "7"] eq_refl).
  - destruct (empty_script_content_is_absent quiet
                (JObj [("scriptContent", JStr "")]) [] eq_refl)
      as [_ [_ [_ Hnone]]].
    apply (Hnone eq_refl).
Defined.

(** ** The filesystem handler: [writeFile] *)




(** ** The Docker handler: exec in a container *)

Lemma str_cat_nil_r s : s ^ "" = s.
Proof.
  unfold str_cat. induction s as [|c s IH]; cbn; [reflexivity | now rewrite IH].
Qed.

Lemma str_cat_assoc a b c : (a ^ b) ^ c = a ^ b ^ c.
Proof.
  unfold str_cat. induction a as [|x a IH]; cbn; [reflexivity | now rewrite IH].
Qed.

Lemma concat_cons chunk rest :
  String.concat "" (chunk :: rest) = chunk ^ String.concat "" rest.
Proof.
  destruct rest as [|next rest]; cbn.
  - symmetry. apply str_cat_nil_r.
  - reflexivity.
Qed.

(** The ['data'] handler appends every chunk, in the order of arrival. *)
Lemma read_stream_accumulates chunks : forall acc t,
  read_stream chunks acc t =
    (Ok (acc ^ String.concat "" chunks), t ++ map StreamData chunks).
Proof.
  induction chunks as [|chunk rest IH]; intros acc t.
  - cbn [read_stream String.concat map]. unfold ret.
    now rewrite str_cat_nil_r, app_nil_r.
  - cbn [read_stream map]. unfold bind, emit.
    rewrite IH, concat_cons, str_cat_assoc, <- app_assoc. reflexivity.
Qed.


Lemma is_str_truthy v lit : lit <> "" -> is_str v lit = true -> truthy v = true.
Proof.
  intros Hlit H. destruct v as [| | | |s| | |]; try discriminate.
  cbn in *. apply String.eqb_eq in H. subst s.
  destruct (String.eqb_spec lit ""); [contradiction | reflexivity].
Qed.

Lemma is_str_other v a b : a <> b -> is_str v a = true -> is_str v b = false.
Proof.
  intros Hab H. destruct v as [| | | |s| | |]; try discriminate.
  cbn in *. apply String.eqb_eq in H. subst s.
  now apply String.eqb_neq.
Qed.



(** ** The script handler: the temporary file *)

Lemma str_length_cat a b :
  String.length (a ^ b) = (String.length a + String.length b)%nat.
Proof.
  unfold str_cat. induction a as [|c a IH]; cbn; [reflexivity | now rewrite IH].
Qed.

Lemma str_cat_cancel_r s : forall a b, a ^ s = b ^ s -> a = b.
Proof.
  induction a as [|c a IH]; intros [|d b] H.
  - reflexivity.
  - apply (f_equal String.length) in H.
    rewrite !str_length_cat in H. cbn in H. lia.
  - apply (f_equal String.length) in H.
    rewrite !str_length_cat in H. cbn in H. lia.
  - unfold str_cat in H. cbn in H. injection H as -> H.
    f_equal. now apply IH.
Qed.

Lemma show_Z_inj a b : show_Z a = show_Z b -> a = b.
Proof.
  unfold show_Z. intros H.
  assert (Hnz : forall n, Z.to_int n <> Decimal.Pos Decimal.Nil /\
                          Z.to_int n <> Decimal.Neg Decimal.Nil).
  { intros [|p|p]; cbn; split; try discriminate;
      intros [= E]; now apply (DecimalPos.Unsigned.to_uint_nonnil p). }
  apply DecimalZ.to_int_inj.
  assert (E : Some (Z.to_int a) = Some (Z.to_int b)).
  { rewrite <- (NilZero.isi (Z.to_int a)), <- (NilZero.isi (Z.to_int b));
      try apply Hnz.
    now rewrite H. }
  now injection E.
Qed.

(** The name of the temporary file is a function of the clock alone, and
    two readings of the clock give the same name only when they agree. *)
Lemma temp_script_path_inj a b :
  temp_script_path a = temp_script_path b -> a = b.
Proof.
  unfold temp_script_path, str_cat. cbn [String.append].
  intros H. injection H as H.
  apply show_Z_inj. now apply (str_cat_cancel_r ".py").
Qed.

Lemma temp_script_path_truthy now : truthy (JStr (temp_script_path now)) = true.
Proof. reflexivity. Qed.

Lemma script_argv_run B path args t :
  script_argv B path args t =
    match iterate args with
    | Some items => (Ok (JArr (path :: items)), t)
    | None => (Throw (new_TypeError B "args is not iterable"), t)
    end.
Proof. unfold script_argv. destruct (iterate args); reflexivity. Qed.

(** C5, as stated, fails: a request may supply a [scriptContent] that is the
    empty string.  The interpreter then runs on [scriptPath], and no
    temporary file is written or removed. *)
Lemma empty_script_content_stages_no_file :
  let params :=
    JObj [("scriptContent", JStr ""); ("scriptPath", JStr "/app/job.py")] in
  prop params "scriptContent" <> JUndefined /\
  handlePythonScript quiet params [] =
    (Ok (JObj [("stdout", JStr "done"); ("stderr", JStr "");
               ("exitCode", JNum 0)]),
     [Execa (JStr "python3") (JArr [JStr "/app/job.py"]) JUndefined]) /\
  ~ (forall (B : Backend) (params : JsVal) (t : Trace),
        prop params "scriptContent" <> JUndefined ->
        exists tmp content encoding,
          In (FsWriteFile tmp content encoding)
             (snd (handlePythonScript B params t))).
Proof.
  cbv zeta. split; [discriminate |]. split; [reflexivity |].
  intros H.
  destruct (H quiet
              (JObj [("scriptContent", JStr "");
                     ("scriptPath", JStr "/app/job.py")]) [])
    as [tmp [content [encoding Hin]]]; [discriminate |].
  cbn in Hin. destruct Hin as [Hin | []]. discriminate.
Qed.

(** C5, amended.  When [scriptContent] is truthy (a non-empty string) and
    the write of the temporary file succeeds: the file, named after the
    clock ([/tmp/flowise_python_script_<now>.py], a name that differs when
    the clock differs), is written before the interpreter is called; the
    handler then returns a result and does not throw, whether the
    interpreter ran and succeeded, ran and failed, or the call threw; in
    each case [fs.remove] is called on that file after the interpreter and
    before the handler returns; a failure of that removal is logged and
    nothing else: the result is the same under every behaviour of
    [fs.remove]. *)
Theorem temp_script_is_staged_and_released
    (B : Backend) (params : JsVal) (t : Trace) :
  truthy (prop params "scriptContent") = true ->
  let content := prop params "scriptContent" in
  let now := date_now B t in
  let tmp := JStr (temp_script_path now) in
  let clocked := t ++ [DateNow now] in
  let staged := clocked ++ [FsWriteFile tmp content JUndefined] in
  fs_writeFile B tmp content JUndefined clocked = Ok tt ->
  exists result ran logged,
    handlePythonScript B params t =
      (Ok result, staged ++ ran ++ [FsRemove tmp] ++ logged) /\
    match iterate (default_to (JArr []) (prop params "args")) with
    | Some items => ran = [Execa (JStr "python3") (JArr (tmp :: items)) JUndefined]
    | None => ran = []
    end /\
    match fs_remove B tmp (staged ++ ran) with
    | Ok _ => logged = []
    | Throw e =>
        logged =
          [ConsoleError [JStr "Failed to cleanup temp python script:"; tmp] e]
    end /\
    (forall f : JsVal -> Trace -> Res unit,
        fst (handlePythonScript (with_fs_remove B f) params t) = Ok result) /\
    (forall now', temp_script_path now' = temp_script_path now -> now' = now).
Proof.
  intros Hcontent content now tmp clocked staged Hwrite.
  assert (Hnull : is_nullish params = false).
  { apply (prop_defined_not_nullish params "scriptContent").
    intros E. rewrite E in Hcontent. discriminate. }
  assert (Hrun : forall f,
    handlePythonScript (with_fs_remove B f) params t =
      try_finally
        (try_catch
           (argv <- script_argv B tmp (default_to (JArr []) (prop params "args")) ;;
            r <- execa B (JStr "python3") argv JUndefined ;;
            ret (JObj [("stdout", prop r "stdout");
                       ("stderr", prop r "stderr");
                       ("exitCode", prop r "exitCode")]))
           (fun error =>
            ret (JObj [("stdout", error_prop error "stdout");
                       ("stderr", error_prop error "stderr");
                       ("exitCode", error_prop error "exitCode");
                       ("error", js_or (error_prop error "shortMessage")
                                       (error_prop error "message"))])))
        (try_catch (call (FsRemove tmp) (f tmp))
           (fun e =>
            console_error
              [JStr "Failed to cleanup temp python script:"; tmp] e))
        staged).
  { intros f.
    unfold handlePythonScript, bind at 1, destructure, destructure_from.
    rewrite Hnull. cbn [ret].
    unfold bind at 1, stage_script. rewrite Hcontent.
    unfold bind at 1. cbn [date_now with_fs_remove].
    fold now tmp clocked content.
    unfold bind at 1, call at 1. cbn [fs_writeFile with_fs_remove].
    rewrite Hwrite. fold staged. cbn [ret fst snd].
    assert (Htmp : truthy tmp = true) by apply temp_script_path_truthy.
    unfold falsy. rewrite Htmp. cbn [negb andb].
    reflexivity. }
  assert (Hself : handlePythonScript B params t =
                  handlePythonScript (with_fs_remove B (fs_remove B)) params t).
  { destruct B. reflexivity. }
  rewrite Hself, Hrun.
  unfold try_finally, try_catch, bind. rewrite script_argv_run.
  destruct (iterate (default_to (JArr []) (prop params "args")))
    as [items|] eqn:Hiter.
  - destruct (execa B (JStr "python3") (JArr (tmp :: items)) JUndefined staged)
      as [[r|e] t'] eqn:Hexeca;
      pose proof (execa_trace B (JStr "python3") (JArr (tmp :: items))
                    JUndefined staged) as Ht;
      rewrite Hexeca in Ht; cbn [snd] in Ht; subst t';
      cbn [ret call console_error emit];
      (eexists; exists [Execa (JStr "python3") (JArr (tmp :: items)) JUndefined];
       destruct (fs_remove B tmp
                   (staged ++ [Execa (JStr "python3") (JArr (tmp :: items))
                                 JUndefined])) as [[]|e'] eqn:Hremove;
       cbv beta iota delta [console_error emit];
       eexists; (split; [rewrite <- !app_assoc; reflexivity |]);
       (split; [reflexivity |]); (split; [reflexivity |]);
       (split; [| intros a; apply temp_script_path_inj ]);
       intros f; rewrite Hrun;
       unfold try_finally, try_catch, bind;
       rewrite script_argv_run, Hiter, Hexeca;
       cbn [ret call console_error emit];
       destruct (f tmp _) as [[]|e'']; reflexivity).
  - cbn [throw ret call console_error emit].
    eexists; exists [].
    destruct (fs_remove B tmp (staged ++ [])) as [[]|e'] eqn:Hremove;
      rewrite app_nil_r in Hremove; rewrite Hremove;
      cbv beta iota delta [console_error emit];
      eexists; (split; [rewrite <- ?app_assoc; reflexivity |]);
      (split; [reflexivity |]); (split; [reflexivity |]);
      (split; [| intros a; apply temp_script_path_inj ]);
      intros f; rewrite Hrun;
      unfold try_finally, try_catch, bind; rewrite script_argv_run, Hiter;
      cbn [throw ret call console_error emit];
      destruct (f tmp _) as [[]|e'']; reflexivity.
Qed.

Lemma temp_script_witness :
  exists result,
    handlePythonScript
      (sample_backend (Exited 1 "" "boom") (Throw (io_error "EBUSY")) JNull)
      (JObj [("scriptContent", JStr "print(1)")]) []
    = (Ok result,
       [DateNow 1700000000000;
        FsWriteFile (JStr "/tmp/flowise_python_script_1700000000000.py")
          (JStr "print(1)") JUndefined;
        Execa (JStr "python3")
          (JArr [JStr "/tmp/flowise_python_script_1700000000000.py"])
          JUndefined;
        FsRemove (JStr "/tmp/flowise_python_script_1700000000000.py");
        ConsoleError
          [JStr "Failed to cleanup temp python script:";
           JStr "/tmp/flowise_python_script_1700000000000.py"]
          (io_error "EBUSY")]) /\
    fst (handlePythonScript
           (with_fs_remove
              (sample_backend (Exited 1 "" "boom") (Throw (io_error "EBUSY"))
                 JNull)
              (fun _ _ => Ok tt))
           (JObj [("scriptContent", JStr "print(1)")]) [])
    = Ok result.
Proof.
  destruct (temp_script_is_staged_and_released
              (sample_backend (Exited 1 "" "boom") (Throw (io_error "EBUSY"))
                 JNull)
              (JObj [("scriptContent", JStr "print(1)")]) [] eq_refl eq_refl)
    as [result [ran [logged [Hrun [Hran [Hlogged [Hsame _]]]]]]].
  exists result. split.
  - rewrite Hrun. cbn in Hran, Hlogged. subst ran logged. reflexivity.
  - apply Hsame.
Defined.

(** ** The command handler: a failed command is data *)

(** C2, as stated, fails: a command that starts and exits with status 1
    comes back with [failed] set and the exit code, and also with a
    top-level [error] field, the short message of [execa]. *)
Lemma nonzero_exit_carries_error_field :
  let B := sample_backend (Exited 1 "" "") (Ok tt) JNull in
  handleExecuteCommand B (JObj [("command", JStr "false")]) [] =
    (Ok (JObj [("stdout", JStr ""); ("stderr", JStr "");
               ("exitCode", JNum 1); ("failed", JBool true);
               ("timedOut", JBool false); ("isCanceled", JBool false);
               ("error", JStr "Command failed with exit code 1: false")]),
     [Execa (JStr "false") (JArr []) (JObj [("windowsHide", JBool true)])]) /\
  ~ (forall (B : Backend) (params : JsVal) (t : Trace) code out err,
        truthy (prop params "command") = true ->
        execa_settles B (prop params "command")
          (default_to (JArr []) (prop params "args"))
          (JObj (obj_set "windowsHide" (JBool true)
                   (spread_into [] (default_to (JObj []) (prop params "options")))))
          t
        = process_settles (Exited code out err) (prop params "command")
            (default_to (JArr []) (prop params "args")) ->
        code <> 0%Z ->
        exists v,
          fst (handleExecuteCommand B params t) = Ok v /\
          prop v "failed" = JBool true /\
          prop v "exitCode" = JNum code /\
          prop v "error" = JUndefined).
Proof.
  cbv zeta. split; [reflexivity |].
  intros H.
  destruct (H (sample_backend (Exited 1 "" "") (Ok tt) JNull)
              (JObj [("command", JStr "false")]) [] 1%Z "" ""
              eq_refl eq_refl ltac:(discriminate))
    as [v [Hrun [_ [_ Herror]]]].
  cbn in Hrun. injection Hrun as <-. discriminate.
Qed.

(** C2, amended.  On a request with a truthy [command],
    [handleExecuteCommand] calls [execa] once and returns an object; it
    does not throw, however the promise of [execa] settles.  When the
    promise resolves, the six members of the outcome are those of the
    result and there is no [error].  When it rejects, as [execa] does by
    default for a process that exits with a status other than 0 and for a
    process that cannot be started alike, the six members are read off the
    error, so that a failed command shows [failed] and its exit code, and a
    top-level [error] is added: the short message of the error, or its
    message where there is none. *)
Theorem command_outcome_is_returned
    (B : Backend) (params : JsVal) (t : Trace) :
  truthy (prop params "command") = true ->
  let command := prop params "command" in
  let args := default_to (JArr []) (prop params "args") in
  let execaOptions :=
    JObj (obj_set "windowsHide" (JBool true)
            (spread_into [] (default_to (JObj []) (prop params "options")))) in
  exists v,
    handleExecuteCommand B params t =
      (Ok v, t ++ [Execa command args execaOptions]) /\
    match execa_settles B command args execaOptions t with
    | Ok result =>
        (forall k,
            In k ["stdout"; "stderr"; "exitCode"; "failed"; "timedOut";
                  "isCanceled"] ->
            prop v k = assoc k result) /\
        prop v "error" = JUndefined
    | Throw error =>
        (forall k,
            In k ["stdout"; "stderr"; "exitCode"; "failed"; "timedOut";
                  "isCanceled"] ->
            prop v k = assoc k (extra error)) /\
        prop v "error" =
          (if truthy (assoc "shortMessage" (extra error))
           then assoc "shortMessage" (extra error)
           else JStr (message error))
    end.
Proof.
  intros Hcommand command args execaOptions.
  assert (Hnull : is_nullish params = false).
  { apply (prop_defined_not_nullish params "command").
    intros E. rewrite E in Hcommand. discriminate. }
  unfold handleExecuteCommand, bind, get. rewrite Hnull. cbn [ret].
  rewrite (truthy_not_falsy _ Hcommand).
  fold command args execaOptions.
  unfold try_catch, bind, execa, call.
  destruct (execa_settles B command args execaOptions t) as [result | error].
  - eexists. split; [reflexivity |]. split; [| reflexivity].
    intros k Hk. cbn in Hk.
    repeat (destruct Hk as [<- | Hk]; [reflexivity |]). destruct Hk.
  - eexists. split; [reflexivity |]. split; [| reflexivity].
    intros k Hk. cbn in Hk.
    repeat (destruct Hk as [<- | Hk]; [reflexivity |]). destruct Hk.
Qed.

Lemma command_outcome_witness :
  (exists v,
     handleExecuteCommand (sample_backend (Exited 1 "" "") (Ok tt) JNull)
       (JObj [("command", JStr "false")]) []
     = (Ok v,
        [Execa (JStr "false") (JArr []) (JObj [("windowsHide", JBool true)])]) /\
     prop v "exitCode" = JNum 1 /\
     prop v "failed" = JBool true /\
     prop v "error" = JStr "Command failed with exit code 1: false") /\
  (exists v,
     fst (handleExecuteCommand
            (with_execa quiet
               (fun file args _ _ => start_fails "ENOENT" file args))
            (JObj [("command", JStr "nonesuch")]) [])
     = Ok v /\
     prop v "exitCode" = JUndefined /\
     prop v "failed" = JBool true /\
     prop v "error" =
       JStr ("Command failed with ENOENT: nonesuch" ^ nl
             ^ "spawn nonesuch ENOENT")).
Proof.
  split.
  - destruct (command_outcome_is_returned
                (sample_backend (Exited 1 "" "") (Ok tt) JNull)
                (JObj [("command", JStr "false")]) [] eq_refl)
      as [v [Hrun Hshape]].
    cbn in Hshape. destruct Hshape as [Hfields Herror].
    exists v. split; [exact Hrun |].
    split; [apply (Hfields "exitCode"); cbn; tauto |].
    split; [apply (Hfields "failed"); cbn; tauto | exact Herror].
  - destruct (command_outcome_is_returned
                (with_execa quiet
                   (fun file args _ _ => start_fails "ENOENT" file args))
                (JObj [("command", JStr "nonesuch")]) [] eq_refl)
      as [v [Hrun Hshape]].
    cbn in Hshape. destruct Hshape as [Hfields Herror].
    exists v. split; [rewrite Hrun; reflexivity |].
    split; [apply (Hfields "exitCode"); cbn; tauto |].
    split; [apply (Hfields "failed"); cbn; tauto | exact Herror].
Defined.

(** ** What the handlers return *)

Lemma yields_ret {A : Type} (P : A -> Prop) (a : A) : P a -> yields P (ret a).
Proof. intros H t. exact H. Qed.

Lemma yields_throw {A : Type} (P : A -> Prop) (e : JsError) :
  yields P (throw e).
Proof. intros t. exact I. Qed.

Lemma yields_bind {A C : Type} (P : C -> Prop) (m : M A) (k : A -> M C) :
  (forall a, yields P (k a)) -> yields P (bind m k).
Proof.
  intros H t. unfold bind.
  destruct (m t) as [[a|e] t']; [apply H | exact I].
Qed.

Lemma yields_try_catch {A : Type} (P : A -> Prop) (m : M A) (h : JsError -> M A) :
  yields P m -> (forall e, yields P (h e)) -> yields P (try_catch m h).
Proof.
  intros Hm Hh t. unfold try_catch.
  specialize (Hm t).
  destruct (m t) as [[a|e] t']; [exact Hm | apply Hh].
Qed.

Lemma yields_try_finally {A : Type} (P : A -> Prop) (m : M A) (f : M unit) :
  yields P m -> yields P (try_finally m f).
Proof.
  intros Hm t. unfold try_finally.
  specialize (Hm t).
  destruct (m t) as [r t']. destruct (f t') as [[[]|e] t'']; [exact Hm | exact I].
Qed.

Lemma file_value_serializable d : serializable (file_value d).
Proof. destruct d; reflexivity. Qed.

Create HintDb yields.
#[local] Hint Resolve file_value_serializable : yields.

Ltac yields_step :=
  match goal with
  | |- yields _ (throw _) => apply yields_throw
  | |- yields _ (ret _) =>
      apply yields_ret; first [reflexivity | auto with yields]
  | |- yields _ (bind _ _) => apply yields_bind; intros
  | |- yields _ (try_finally _ _) => apply yields_try_finally
  | |- yields _ (try_catch _ _) => apply yields_try_catch; [| intros]
  | |- yields _ (if ?c then _ else _) => destruct c
  | |- yields _ (match ?x with _ => _ end) => destruct x
  | |- yields _ (let _ := _ in _) => cbv zeta
  end.

Lemma handleFilesystem_serializable B params :
  yields serializable (handleFilesystem B params).
Proof. unfold handleFilesystem. repeat yields_step. Qed.

Lemma handleExecuteCommand_serializable B params :
  yields serializable (handleExecuteCommand B params).
Proof. unfold handleExecuteCommand. repeat yields_step. Qed.

Lemma handleDocker_serializable B params :
  yields serializable (handleDocker B params).
Proof. unfold handleDocker, execInContainer. repeat yields_step. Qed.

Lemma handleSsh_serializable B params :
  yields serializable (handleSsh B params).
Proof. unfold handleSsh. repeat yields_step. Qed.

Lemma handlePythonScript_serializable B params :
  yields serializable (handlePythonScript B params).
Proof. unfold handlePythonScript. repeat yields_step. Qed.

Lemma dispatch_serializable B inputs :
  yields serializable (dispatch B inputs).
Proof.
  unfold dispatch.
  repeat match goal with
         | |- yields _ (if ?c then _ else _) => destruct c
         end;
    auto using handleFilesystem_serializable, handleExecuteCommand_serializable,
      handleDocker_serializable, handleSsh_serializable,
      handlePythonScript_serializable, yields_throw.
  repeat yields_step.
Qed.

Lemma serialize_defined ind v :
  serializable v -> serialize ind v <> NoJson.
Proof.
  destruct v; cbn [serialize]; intros H; try discriminate.
  - match goal with |- context [match ?x with Some _ => _ | None => _ end] =>
      destruct x end; discriminate.
  - match goal with |- context [match ?x with Some _ => _ | None => _ end] =>
      destruct x end; discriminate.
Qed.

Lemma serialize_object_head ind fields s :
  serialize ind (JObj fields) = Json s -> exists rest, s = String "{" rest.
Proof.
  cbn [serialize].
  match goal with |- context [match ?x with Some _ => _ | None => _ end] =>
    destruct x as [parts|] end; [| discriminate].
  unfold bracket. intros [= <-].
  destruct parts; eexists; reflexivity.
Qed.

(** Induction over values, through the items of arrays and the members of
    objects. *)
Lemma JsVal_induction (P : JsVal -> Prop) :
  P JUndefined -> P JNull -> (forall b, P (JBool b)) -> (forall n, P (JNum n)) ->
  (forall s, P (JStr s)) ->
  (forall items, Forall P items -> P (JArr items)) ->
  (forall fields, Forall (fun kv => P (snd kv)) fields -> P (JObj fields)) ->
  (forall n, P (JBigInt n)) ->
  forall v, P v.
Proof.
  intros Hu Hn Hb Hnum Hs Ha Ho Hbig.
  exact (fix rec (v : JsVal) : P v :=
           match v with
           | JUndefined => Hu
           | JNull => Hn
           | JBool b => Hb b
           | JNum n => Hnum n
           | JStr s => Hs s
           | JArr items =>
               Ha items
                 ((fix each (l : list JsVal) : Forall P l :=
                     match l with
                     | [] => Forall_nil P
                     | x :: rest => Forall_cons x (rec x) (each rest)
                     end) items)
           | JObj fields =>
               Ho fields
                 ((fix each (l : list (string * JsVal))
                     : Forall (fun kv => P (snd kv)) l :=
                     match l with
                     | [] => Forall_nil _
                     | kv :: rest =>
                         Forall_cons kv (rec (snd kv)) (each rest)
                     end) fields)
           | JBigInt n => Hbig n
           end).
Qed.

(** [JSON.stringify] refuses a value exactly when a BigInt sits in it. *)
Lemma serialize_refused v : forall ind,
  serialize ind v = JsonRefused <-> has_bigint v = true.
Proof.
  induction v as [| | b | n | s | items IH | fields IH | n]
    using JsVal_induction; intros ind; cbn [serialize has_bigint];
    try (split; discriminate); try (split; reflexivity).
  - induction IH as [| x rest Hx _ IHrest].
    + split; discriminate.
    + specialize (Hx (ind ^ "  ")).
      destruct (serialize (ind ^ "  ") x) eqn:Ex;
        destruct (has_bigint x) eqn:Hbx;
        try (destruct Hx as [Hx1 Hx2]; (discriminate (Hx1 eq_refl)
                                        || discriminate (Hx2 eq_refl)));
        cbn [orb];
        try (split; reflexivity);
        match type of IHrest with
        | (match ?e with Some _ => _ | None => _ end = _ <-> _) =>
            destruct e
        end;
        destruct IHrest as [IH1 IH2];
        (split; [ first [ discriminate | intros _; apply IH1; reflexivity ]
                | first [ reflexivity
                        | intros Hr; discriminate (IH2 Hr) ] ]).
  - induction IH as [| [k x] rest Hx _ IHrest].
    + split; discriminate.
    + cbn [snd] in Hx. specialize (Hx (ind ^ "  ")).
      destruct (serialize (ind ^ "  ") x) eqn:Ex;
        destruct (has_bigint x) eqn:Hbx;
        try (destruct Hx as [Hx1 Hx2]; (discriminate (Hx1 eq_refl)
                                        || discriminate (Hx2 eq_refl)));
        cbn [orb];
        try (split; reflexivity);
        match type of IHrest with
        | (match ?e with Some _ => _ | None => _ end = _ <-> _) =>
            destruct e
        end;
        destruct IHrest as [IH1 IH2];
        (split; [ first [ discriminate | intros _; apply IH1; reflexivity ]
                | first [ reflexivity
                        | intros Hr; discriminate (IH2 Hr) ] ]).
Qed.

(** ** [_call]: what leaves it *)

Ltac call_unfold :=
  unfold _call, destructure_from, bind, try_catch, text_of, JSON_stringify,
    console_error, emit, ret, throw.

(** The [switch] returned a payload and [JSON.stringify] gave its text. *)
Lemma call_returns B inputs t payload t' text :
  is_nullish inputs = false ->
  dispatch B inputs t = (Ok payload, t') ->
  serialize "" payload = Json text ->
  _call B inputs t = (Ok (Some text), t').
Proof.
  intros Hin Hrun Hs. call_unfold. now rewrite Hin, Hrun, Hs.
Qed.

(** The [switch] returned a payload that serializes: its text is the
    result, and nothing is logged. *)
Lemma call_success B inputs t payload t' :
  is_nullish inputs = false ->
  dispatch B inputs t = (Ok payload, t') ->
  has_bigint payload = false ->
  exists s, serialize "" payload = Json s /\
            _call B inputs t = (Ok (Some s), t').
Proof.
  intros Hin Hrun Hbig.
  pose proof (dispatch_serializable B inputs t) as Hpayload.
  rewrite Hrun in Hpayload. cbn [fst] in Hpayload.
  pose proof (serialize_defined "" payload Hpayload) as Hdef.
  destruct (serialize "" payload) as [s| |] eqn:Hs.
  - exists s. split; [reflexivity |].
    call_unfold. rewrite Hin, Hrun, Hs. reflexivity.
  - contradiction.
  - apply serialize_refused in Hs. congruence.
Qed.

(** The text of the error result: its members in the order of the object
    literal, without those whose value is [undefined]. *)
Lemma error_result_text error inputs :
  has_bigint (actionType inputs) = false ->
  has_bigint (actionParams inputs) = false ->
  serialize "" (error_result error inputs) =
    Json ("{" ^ nl ^ "  "
          ^ join ("," ^ nl ^ "  ")
              ([quote "error" ^ ": " ^ quote (message error);
                quote "details" ^ ": " ^ quote (stack error)]
               ++ match serialize "  " (actionType inputs) with
                  | Json kind => [quote "actionType" ^ ": " ^ kind]
                  | _ => []
                  end
               ++ match serialize "  " (actionParams inputs) with
                  | Json params => [quote "actionParams" ^ ": " ^ params]
                  | _ => []
                  end)
          ^ nl ^ "}").
Proof.
  intros Hkind Hparams.
  unfold error_result. cbn [serialize].
  change (serialize ("" ^ "  ")) with (serialize "  ").
  change (error_prop error "message") with (JStr (message error)).
  change (error_prop error "stack") with (JStr (stack error)).
  cbn [serialize].
  destruct (serialize "  " (actionType inputs)) as [kind| |] eqn:Ek;
    [| | apply serialize_refused in Ek; congruence];
    (destruct (serialize "  " (actionParams inputs)) as [params| |] eqn:Ep;
     [| | apply serialize_refused in Ep; congruence]);
    reflexivity.
Qed.

(** The error result is refused as soon as the parameters hold a BigInt. *)
Lemma error_result_refused error inputs :
  has_bigint (actionParams inputs) = true ->
  serialize "" (error_result error inputs) = JsonRefused.
Proof.
  intros Hparams. apply serialize_refused.
  unfold error_result. cbn [has_bigint]. rewrite Hparams.
  change (error_prop error "message") with (JStr (message error)).
  change (error_prop error "stack") with (JStr (stack error)).
  cbn [has_bigint orb].
  destruct (has_bigint (actionType inputs)); reflexivity.
Qed.

(** What the [catch] block does with an error the [switch] threw. *)
Lemma call_caught B inputs t error t' label :
  is_nullish inputs = false ->
  dispatch B inputs t = (Throw error, t') ->
  to_string (actionType inputs) = Some label ->
  _call B inputs t =
    (match serialize "" (error_result error inputs) with
     | Json text => Ok (Some text)
     | NoJson => Ok None
     | JsonRefused =>
         Throw (new_TypeError B "Do not know how to serialize a BigInt")
     end,
     t' ++ [ConsoleError
              [JStr ("Error in AgentExecutorLangchainTool (" ^ label ^ "):")]
              error]).
Proof.
  intros Hin Hrun Hlabel.
  call_unfold. rewrite Hin, Hrun, Hlabel.
  destruct (serialize "" (error_result error inputs)); reflexivity.
Qed.

(** A payload that [JSON.stringify] refuses sends the [TypeError] to the
    same [catch] block. *)
Lemma call_payload_refused B inputs t payload t' label :
  is_nullish inputs = false ->
  dispatch B inputs t = (Ok payload, t') ->
  has_bigint payload = true ->
  to_string (actionType inputs) = Some label ->
  let error := new_TypeError B "Do not know how to serialize a BigInt" in
  _call B inputs t =
    (match serialize "" (error_result error inputs) with
     | Json text => Ok (Some text)
     | NoJson => Ok None
     | JsonRefused => Throw error
     end,
     t' ++ [ConsoleError
              [JStr ("Error in AgentExecutorLangchainTool (" ^ label ^ "):")]
              error]).
Proof.
  intros Hin Hrun Hbig Hlabel error.
  apply (serialize_refused payload "") in Hbig.
  call_unfold. rewrite Hin, Hrun, Hbig, Hlabel.
  fold (new_TypeError B "Do not know how to serialize a BigInt").
  fold error.
  destruct (serialize "" (error_result error inputs)); reflexivity.
Qed.

(** C1.  The claim fails in the code.  When the [switch] throws and the
    parameters of the request hold a value that [JSON.stringify] refuses
    (here a BigInt, which the schema's [z.any()] lets through), the [catch]
    block logs the error and then throws itself: the [TypeError] of its own
    [JSON.stringify] leaves [_call], and no string is returned.  This holds
    for every backend and every earlier trace. *)
Theorem call_throws_when_the_echo_does_not_serialize
    (B : Backend) (inputs : Inputs) (t t' : Trace) (error : JsError)
    (label : string) :
  is_nullish inputs = false ->
  dispatch B inputs t = (Throw error, t') ->
  to_string (actionType inputs) = Some label ->
  has_bigint (actionParams inputs) = true ->
  _call B inputs t =
    (Throw (new_TypeError B "Do not know how to serialize a BigInt"),
     t' ++ [ConsoleError
              [JStr ("Error in AgentExecutorLangchainTool (" ^ label ^ "):")]
              error]).
Proof.
  intros Hin Hrun Hlabel Hbig.
  rewrite (call_caught B inputs t error t' label Hin Hrun Hlabel).
  now rewrite (error_result_refused error inputs Hbig).
Qed.

(** A file-system request without an operation, whose parameters carry a
    BigInt: the handler throws, the [catch] block logs, and the
    serialization of the error result throws past [_call]. *)
Lemma call_throws_witness :
  let inputs :=
    mkInputs (JStr "filesystem")
      (JObj [("path", JStr "/tmp/t.txt"); ("mode", JBigInt 420)]) in
  let missing :=
    new_Error quiet
      ("Missing " ^ dq ^ "operation" ^ dq ^ " or " ^ dq ^ "path" ^ dq
       ^ " for filesystem action") in
  _call quiet inputs [] =
    (Throw (new_TypeError quiet "Do not know how to serialize a BigInt"),
     [ConsoleError
        [JStr "Error in AgentExecutorLangchainTool (filesystem):"] missing]).
Proof.
  cbv zeta.
  apply (call_throws_when_the_echo_does_not_serialize quiet
           (mkInputs (JStr "filesystem")
              (JObj [("path", JStr "/tmp/t.txt"); ("mode", JBigInt 420)]))
           [] [] _ "filesystem");
    reflexivity.
Defined.

(** An unknown kind reaches the default branch, which throws; [_call]
    turns that into the error result. *)
Example unknown_kind_is_reported :
  fst (_call quiet (mkInputs (JStr "reboot") (JObj [("now", JBool true)])) [])
  = Ok (JSON_text
          (JObj [("error", JStr "Unsupported actionType: reboot");
                 ("details",
                  JStr (sample_stack "Error" "Unsupported actionType: reboot"));
                 ("actionType", JStr "reboot");
                 ("actionParams", JObj [("now", JBool true)])])).
Proof. reflexivity. Qed.

(** C3, as stated, fails on the success path: reading a file returns its
    content serialized and nothing else; the string is no object, and it
    echoes neither the kind nor the parameters. *)
Lemma success_result_echoes_nothing :
  let inputs :=
    mkInputs (JStr "filesystem")
      (JObj [("operation", JStr "readFile"); ("path", JStr "/tmp/t.txt")]) in
  fst (_call quiet inputs []) = Ok (Some (dq ^ "abc" ^ dq)) /\
  ~ (forall (B : Backend) (inputs : Inputs) (t : Trace) (s : string),
        fst (_call B inputs t) = Ok (Some s) ->
        exists payload,
          JSON_text
            (JObj (payload ++ [("actionType", actionType inputs);
                               ("actionParams", actionParams inputs)]))
          = Some s).
Proof.
  cbv zeta. split; [reflexivity |].
  intros H.
  destruct (H quiet
              (mkInputs (JStr "filesystem")
                 (JObj [("operation", JStr "readFile");
                        ("path", JStr "/tmp/t.txt")]))
              [] (dq ^ "abc" ^ dq) eq_refl) as [payload Hs].
  unfold JSON_text in Hs.
  destruct (serialize "" _) as [text| |] eqn:Htext in Hs; try discriminate.
  injection Hs as ->.
  apply serialize_object_head in Htext. destruct Htext as [rest Hrest].
  discriminate.
Qed.

(** C3, amended.  For a request that is an object.  On the error path the
    result is an object whose members come in this order: [error] and
    [details] first, then [actionType], then [actionParams], the last two
    echoing the request (a member whose value is [undefined] is left out by
    [JSON.stringify]).  On the success path the result is the payload of
    the handler serialized as it is: [_call] adds no kind and no parameters
    to it.  The two exceptions are spelled out: a kind without a text makes
    the [catch] block throw before it logs, and a BigInt in the kind or in
    the parameters makes its [JSON.stringify] throw; a payload holding a
    BigInt is refused by the [JSON.stringify] of the [try] block and takes
    the error path with that [TypeError]. *)
Theorem request_is_echoed_on_the_error_path
    (B : Backend) (inputs : Inputs) (t : Trace) :
  is_nullish inputs = false ->
  let refused := new_TypeError B "Do not know how to serialize a BigInt" in
  let caught (error : JsError) : Res (option string) :=
    match to_string (actionType inputs) with
    | None =>
        Throw (new_TypeError B "Cannot convert object to primitive value")
    | Some _ =>
        if (has_bigint (actionType inputs)
            || has_bigint (actionParams inputs))%bool
        then Throw refused
        else
          Ok (Some ("{" ^ nl ^ "  "
                    ^ join ("," ^ nl ^ "  ")
                        ([quote "error" ^ ": " ^ quote (message error);
                          quote "details" ^ ": " ^ quote (stack error)]
                         ++ match serialize "  " (actionType inputs) with
                            | Json kind => [quote "actionType" ^ ": " ^ kind]
                            | _ => []
                            end
                         ++ match serialize "  " (actionParams inputs) with
                            | Json params =>
                                [quote "actionParams" ^ ": " ^ params]
                            | _ => []
                            end)
                    ^ nl ^ "}"))
    end in
  match fst (dispatch B inputs t) with
  | Throw error => fst (_call B inputs t) = caught error
  | Ok payload =>
      fst (_call B inputs t) =
        if has_bigint payload then caught refused else Ok (JSON_text payload)
  end.
Proof.
  intros Hin refused caught.
  assert (Hcaught : forall error t',
    fst (match to_string (actionType inputs) with
         | Some label =>
             (match serialize "" (error_result error inputs) with
              | Json text => Ok (Some text)
              | NoJson => Ok None
              | JsonRefused => Throw refused
              end,
              t' ++ [ConsoleError
                       [JStr ("Error in AgentExecutorLangchainTool ("
                              ^ label ^ "):")] error])
         | None =>
             (Throw (new_TypeError B "Cannot convert object to primitive value"),
              t')
         end) = caught error).
  { intros error t'. unfold caught.
    destruct (to_string (actionType inputs)) as [label|]; [| reflexivity].
    cbn [fst].
    destruct (has_bigint (actionType inputs)) eqn:Hkind.
    - cbn [orb].
      assert (Hr : serialize "" (error_result error inputs) = JsonRefused).
      { apply serialize_refused. unfold error_result. cbn [has_bigint].
        rewrite Hkind.
        change (error_prop error "message") with (JStr (message error)).
        change (error_prop error "stack") with (JStr (stack error)).
        reflexivity. }
      now rewrite Hr.
    - cbn [orb]. destruct (has_bigint (actionParams inputs)) eqn:Hparams.
      + now rewrite (error_result_refused error inputs Hparams).
      + now rewrite (error_result_text error inputs Hkind Hparams). }
  destruct (dispatch B inputs t) as [[payload|error] t'] eqn:Hrun; cbn [fst].
  - destruct (has_bigint payload) eqn:Hbig.
    + rewrite <- (Hcaught refused t').
      apply (serialize_refused payload "") in Hbig.
      call_unfold. rewrite Hin, Hrun, Hbig.
      fold (new_TypeError B "Do not know how to serialize a BigInt").
      fold (new_TypeError B "Cannot convert object to primitive value").
      fold refused.
      destruct (to_string (actionType inputs)); [| reflexivity].
      destruct (serialize "" (error_result refused inputs)); reflexivity.
    + destruct (call_success B inputs t payload t' Hin Hrun Hbig)
        as [s [Hs Hcall]].
      rewrite Hcall. unfold JSON_text. now rewrite Hs.
  - rewrite <- (Hcaught error t').
    call_unfold. rewrite Hin, Hrun.
    fold (new_TypeError B "Do not know how to serialize a BigInt").
    fold (new_TypeError B "Cannot convert object to primitive value").
    fold refused.
    destruct (to_string (actionType inputs)); [| reflexivity].
    destruct (serialize "" (error_result error inputs)); reflexivity.
Qed.

(** An unknown kind on the error path, with its parameters echoed. *)
Lemma request_is_echoed_witness :
  fst (_call quiet (mkInputs (JStr "reboot") (JObj [("now", JBool true)])) [])
  = Ok (Some ("{" ^ nl ^ "  "
              ^ join ("," ^ nl ^ "  ")
                  [quote "error" ^ ": " ^ quote "Unsupported actionType: reboot";
                   quote "details" ^ ": "
                   ^ quote (sample_stack "Error"
                              "Unsupported actionType: reboot");
                   quote "actionType" ^ ": " ^ quote "reboot";
                   quote "actionParams" ^ ": "
                   ^ ("{" ^ nl ^ "    " ^ quote "now" ^ ": true" ^ nl ^ "  }")]
              ^ nl ^ "}")).
Proof.
  exact (request_is_echoed_on_the_error_path quiet
           (mkInputs (JStr "reboot") (JObj [("now", JBool true)])) []
           eq_refl).
Defined.

(** * Further properties of the handlers *)

(** ** A request stays within its own backend *)

Lemma appends_ret {A : Type} (P : Event -> Prop) (a : A) : appends P (ret a).
Proof. intros t. exists []. split; [symmetry; apply app_nil_r | constructor]. Qed.

Lemma appends_throw {A : Type} (P : Event -> Prop) (e : JsError) :
  appends P (@throw A e).
Proof. intros t. exists []. split; [symmetry; apply app_nil_r | constructor]. Qed.

Lemma appends_emit (P : Event -> Prop) (ev : Event) : P ev -> appends P (emit ev).
Proof. intros H t. exists [ev]. split; [reflexivity | now repeat constructor]. Qed.

Lemma appends_call {A : Type} (P : Event -> Prop) (ev : Event)
    (oracle : Trace -> Res A) :
  P ev -> appends P (call ev oracle).
Proof. intros H t. exists [ev]. split; [reflexivity | now repeat constructor]. Qed.

Lemma appends_bind {A C : Type} (P : Event -> Prop) (m : M A) (k : A -> M C) :
  appends P m -> (forall a, appends P (k a)) -> appends P (bind m k).
Proof.
  intros Hm Hk t. unfold bind.
  destruct (Hm t) as [added [Ht Hadded]].
  destruct (m t) as [[a|e] t']; cbn [snd] in Ht; subst t'.
  - destruct (Hk a (t ++ added)) as [more [Ht' Hmore]].
    exists (added ++ more). split.
    + rewrite Ht'. symmetry. apply app_assoc.
    + apply Forall_app. now split.
  - exists added. now split.
Qed.

Lemma appends_try_catch {A : Type} (P : Event -> Prop) (m : M A)
    (h : JsError -> M A) :
  appends P m -> (forall e, appends P (h e)) -> appends P (try_catch m h).
Proof.
  intros Hm Hh t. unfold try_catch.
  destruct (Hm t) as [added [Ht Hadded]].
  destruct (m t) as [[a|e] t']; cbn [snd] in Ht; subst t'.
  - exists added. now split.
  - destruct (Hh e (t ++ added)) as [more [Ht' Hmore]].
    exists (added ++ more). split.
    + rewrite Ht'. symmetry. apply app_assoc.
    + apply Forall_app. now split.
Qed.

Lemma appends_try_finally {A : Type} (P : Event -> Prop) (m : M A) (f : M unit) :
  appends P m -> appends P f -> appends P (try_finally m f).
Proof.
  intros Hm Hf t. unfold try_finally.
  destruct (Hm t) as [added [Ht Hadded]].
  destruct (m t) as [r t']; cbn [snd] in Ht; subst t'.
  destruct (Hf (t ++ added)) as [more [Ht' Hmore]].
  exists (added ++ more).
  destruct (f (t ++ added)) as [[[]|e] t'']; cbn [snd] in Ht' |- *; subst t'';
    (split; [symmetry; apply app_assoc | apply Forall_app; now split]).
Qed.

Lemma appends_weaken {A : Type} (P Q : Event -> Prop) (m : M A) :
  (forall ev, P ev -> Q ev) -> appends P m -> appends Q m.
Proof.
  intros HPQ Hm t. destruct (Hm t) as [added [Ht Hadded]].
  exists added. split; [exact Ht |].
  eapply Forall_impl; eauto.
Qed.

Lemma read_stream_appends (P : Event -> Prop) chunks : forall acc,
  (forall chunk, P (StreamData chunk)) -> appends P (read_stream chunks acc).
Proof.
  induction chunks as [|chunk rest IH]; intros acc HP; cbn [read_stream].
  - apply appends_ret.
  - apply appends_bind; [now apply appends_emit | intros _; now apply IH].
Qed.

Lemma text_of_appends B (P : Event -> Prop) v : appends P (text_of B v).
Proof.
  unfold text_of. destruct (to_string v); [apply appends_ret | apply appends_throw].
Qed.

Lemma JSON_stringify_appends B (P : Event -> Prop) v :
  appends P (JSON_stringify B v).
Proof.
  unfold JSON_stringify.
  destruct (serialize "" v); first [apply appends_ret | apply appends_throw].
Qed.

Lemma destructure_from_appends B (P : Event -> Prop) source v first :
  appends P (destructure_from B source v first).
Proof.
  unfold destructure_from.
  destruct (is_nullish v); [apply appends_throw | apply appends_ret].
Qed.

Ltac appends_step :=
  match goal with
  | |- appends _ (text_of _ _) => apply text_of_appends
  | |- appends _ (JSON_stringify _ _) => apply JSON_stringify_appends
  | |- appends _ (destructure_from _ _ _ _) => apply destructure_from_appends
  | |- appends _ (throw _) => apply appends_throw
  | |- appends _ (ret _) => apply appends_ret
  | |- appends _ (emit _) => apply appends_emit
  | |- appends _ (console_error _ _) => apply appends_emit
  | |- appends _ (call _ _) => apply appends_call
  | |- appends _ (read_stream _ _) => apply read_stream_appends; intros
  | |- appends _ (bind _ _) => apply appends_bind; [| intros]
  | |- appends _ (try_finally _ _) => apply appends_try_finally
  | |- appends _ (try_catch _ _) => apply appends_try_catch; [| intros]
  | |- appends _ (if ?c then _ else _) => destruct c
  | |- appends _ (match ?x with _ => _ end) => destruct x
  | |- appends _ (let _ := _ in _) => cbv zeta
  end.

Ltac touches_goal H :=
  try (cbn [touches]; rewrite H; cbn [orb]; rewrite ?orb_true_r; reflexivity).

Lemma handleFilesystem_appends B kind params :
  is_str kind "filesystem" = true ->
  appends (fun ev => touches kind ev = true) (handleFilesystem B params).
Proof.
  intros H. unfold handleFilesystem, destructure.
  repeat appends_step; touches_goal H.
Qed.

Lemma handleExecuteCommand_appends B kind params :
  is_str kind "executeCommand" = true ->
  appends (fun ev => touches kind ev = true) (handleExecuteCommand B params).
Proof.
  intros H. unfold handleExecuteCommand, get, execa.
  repeat appends_step; touches_goal H.
Qed.

Lemma handleDocker_appends B kind params :
  is_str kind "docker" = true ->
  appends (fun ev => touches kind ev = true) (handleDocker B params).
Proof.
  intros H. unfold handleDocker, execInContainer, exec_cmd, destructure.
  repeat appends_step; touches_goal H.
Qed.

Lemma handleSsh_appends B kind params :
  is_str kind "ssh" = true ->
  appends (fun ev => touches kind ev = true) (handleSsh B params).
Proof.
  intros H. unfold handleSsh, private_key_text, destructure.
  repeat appends_step; touches_goal H.
Qed.

Lemma stage_script_appends B kind content path :
  is_str kind "pythonScript" = true ->
  appends (fun ev => touches kind ev = true) (stage_script B content path).
Proof.
  intros H. unfold stage_script.
  destruct (truthy content); [| apply appends_ret].
  apply appends_bind.
  - intros t. exists [DateNow (date_now B t)]. split; [reflexivity |].
    repeat constructor. touches_goal H.
  - intros now. repeat appends_step; touches_goal H.
Qed.

Lemma handlePythonScript_appends B kind params :
  is_str kind "pythonScript" = true ->
  appends (fun ev => touches kind ev = true) (handlePythonScript B params).
Proof.
  intros H. unfold handlePythonScript, destructure.
  apply appends_bind; [repeat appends_step |]. intros _. cbv zeta.
  apply appends_bind; [now apply stage_script_appends |]. intros staged.
  unfold script_argv, execa.
  repeat appends_step; touches_goal H.
Qed.

Lemma dispatch_appends B inputs :
  appends (fun ev => touches (actionType inputs) ev = true) (dispatch B inputs).
Proof.
  unfold dispatch. cbv zeta.
  destruct (is_str (actionType inputs) "filesystem") eqn:Hfs;
    [now apply handleFilesystem_appends |].
  destruct (is_str (actionType inputs) "executeCommand") eqn:Hcmd;
    [now apply handleExecuteCommand_appends |].
  destruct (is_str (actionType inputs) "docker") eqn:Hdocker;
    [now apply handleDocker_appends |].
  destruct (is_str (actionType inputs) "ssh") eqn:Hssh;
    [now apply handleSsh_appends |].
  destruct (is_str (actionType inputs) "pythonScript") eqn:Hpy;
    [now apply handlePythonScript_appends |].
  apply appends_bind; [apply text_of_appends | intros; apply appends_throw].
Qed.

(** X1.  [_call] never rewrites the trace: it only adds to it.  What a
    request adds belongs to the backend of its kind: a [filesystem] request
    makes file-system calls only, an [executeCommand] request only runs
    [execa], a [docker] request only talks to the daemon and its stream, an
    [ssh] request only uses the connection, a [pythonScript] request only
    reads the clock, writes and removes a file and runs [execa]; a request
    of an unknown kind reaches no backend at all.  Beside these there is
    only the [console.error] line of the [catch] block. *)
Theorem call_touches_only_its_backend
    (B : Backend) (inputs : Inputs) (t : Trace) :
  exists added,
    snd (_call B inputs t) = t ++ added /\
    Forall (fun ev =>
              touches (actionType inputs) ev = true \/
              exists args e, ev = ConsoleError args e) added.
Proof.
  assert (H : appends (fun ev =>
                         touches (actionType inputs) ev = true \/
                         exists args e, ev = ConsoleError args e)
                (_call B inputs)).
  { unfold _call.
    apply appends_bind; [apply destructure_from_appends | intros _].
    apply appends_try_catch.
    - apply appends_bind; [| intros; apply JSON_stringify_appends].
      eapply appends_weaken; [| apply dispatch_appends].
      intros ev Hev. now left.
    - intros e.
      apply appends_bind; [apply text_of_appends | intros label].
      apply appends_bind; [| intros; apply JSON_stringify_appends].
      apply appends_emit. right. eauto. }
  apply H.
Qed.

(** ** The filesystem handler *)

Lemma truthy_not_nullish params k :
  truthy (prop params k) = true -> is_nullish params = false.
Proof.
  intros H. apply (prop_defined_not_nullish params k).
  intros E. rewrite E in H. discriminate.
Qed.

(** X2.  [handleFilesystem] asks for an operation and a path before
    anything else: when either is falsy (absent, or the empty string) it
    throws the missing-parameter error and calls nothing. *)
Theorem filesystem_requires_operation_and_path
    (B : Backend) (params : JsVal) (t : Trace) :
  is_nullish params = false ->
  truthy (prop params "operation") = false \/
  truthy (prop params "path") = false ->
  handleFilesystem B params t =
    (Throw (new_Error B
              ("Missing " ^ dq ^ "operation" ^ dq ^ " or " ^ dq ^ "path" ^ dq
               ^ " for filesystem action")), t).
Proof.
  intros Hnull Hmissing.
  unfold handleFilesystem, bind, destructure, destructure_from. rewrite Hnull. cbn [ret].
  unfold falsy.
  destruct Hmissing as [-> | ->]; cbn [negb orb]; rewrite ?orb_true_r;
    reflexivity.
Qed.

Lemma filesystem_requires_path_witness :
  handleFilesystem quiet
    (JObj [("operation", JStr "deleteFile"); ("path", JStr "")]) []
  = (Throw (new_Error quiet
              ("Missing " ^ dq ^ "operation" ^ dq ^ " or " ^ dq ^ "path" ^ dq
               ^ " for filesystem action")), []).
Proof.
  apply filesystem_requires_operation_and_path; [reflexivity |].
  right. reflexivity.
Defined.

(** X3.  With an operation and a path present, [handleFilesystem] makes
    exactly one call, a file-system call, when the operation is one of the
    five the form offers (and, for [writeFile], a content is given).  Any
    other operation is refused and nothing is called: with the
    unsupported-operation error that names the operation when the operation
    has a text, with the [TypeError] of the conversion when it has none. *)
Theorem filesystem_calls_once_iff_offered
    (B : Backend) (params : JsVal) (t : Trace) :
  truthy (prop params "operation") = true ->
  truthy (prop params "path") = true ->
  (offered fsOperationOptions (prop params "operation") = false ->
   handleFilesystem B params t =
     (Throw
        match to_string (prop params "operation") with
        | Some text =>
            new_Error B ("Unsupported filesystem operation: " ^ text)
        | None =>
            new_TypeError B "Cannot convert object to primitive value"
        end, t)) /\
  (offered fsOperationOptions (prop params "operation") = true ->
   (is_str (prop params "operation") "writeFile" = true ->
    prop params "content" <> JUndefined) ->
   exists ev,
     snd (handleFilesystem B params t) = t ++ [ev] /\
     touches (JStr "filesystem") ev = true).
Proof.
  intros Hop Hpath.
  pose proof (truthy_not_nullish _ _ Hpath) as Hnull.
  unfold offered, fsOperationOptions. cbn [existsb option_name].
  unfold handleFilesystem, bind, destructure, destructure_from. rewrite Hnull. cbn [ret].
  rewrite (truthy_not_falsy _ Hop), (truthy_not_falsy _ Hpath). cbn [orb].
  destruct (is_str (prop params "operation") "readFile") eqn:Hread.
  { split; [discriminate | intros _ _].
    unfold call. eexists.
    split; [destruct (fs_readFile B _ _ t); reflexivity | reflexivity]. }
  destruct (is_str (prop params "operation") "writeFile") eqn:Hwrite.
  { split; [discriminate | intros _ Hcontent].
    destruct (prop params "content") eqn:Hc;
      try (exfalso; now apply Hcontent);
      cbn [is_undefined]; unfold call; eexists;
      (split; [destruct (fs_writeFile B _ _ _ t) as [[]|]; reflexivity
              | reflexivity]). }
  destruct (is_str (prop params "operation") "deleteFile") eqn:Hdelete.
  { split; [discriminate | intros _ _].
    unfold call. eexists.
    split; [destruct (fs_remove B _ t) as [[]|]; reflexivity | reflexivity]. }
  destruct (is_str (prop params "operation") "listDir") eqn:Hlist.
  { split; [discriminate | intros _ _].
    unfold call. eexists.
    split; [destruct (fs_readdir B _ t); reflexivity | reflexivity]. }
  destruct (is_str (prop params "operation") "pathExists") eqn:Hexists.
  { split; [discriminate | intros _ _].
    unfold call. eexists.
    split; [destruct (fs_pathExists B _ t); reflexivity | reflexivity]. }
  split; [intros _ | discriminate].
  unfold text_of.
  destruct (to_string (prop params "operation")); reflexivity.
Qed.

Lemma filesystem_calls_once_witness :
  handleFilesystem quiet
    (JObj [("operation", JStr "chmod"); ("path", JStr "/tmp/t.txt")]) []
  = (Throw (new_Error quiet "Unsupported filesystem operation: chmod"), []) /\
  exists ev,
    snd (handleFilesystem quiet
           (JObj [("operation", JStr "listDir"); ("path", JStr "/tmp")]) [])
    = [ev] /\ touches (JStr "filesystem") ev = true.
Proof.
  split.
  - apply (filesystem_calls_once_iff_offered quiet
             (JObj [("operation", JStr "chmod"); ("path", JStr "/tmp/t.txt")])
             [] eq_refl eq_refl).
    reflexivity.
  - apply (filesystem_calls_once_iff_offered quiet
             (JObj [("operation", JStr "listDir"); ("path", JStr "/tmp")])
             [] eq_refl eq_refl).
    + reflexivity.
    + discriminate.
Defined.

Lemma dispatch_filesystem B params :
  dispatch B (mkInputs (JStr "filesystem") params) = handleFilesystem B params.
Proof. reflexivity. Qed.

(** X4.  Reading a file through [_call]: the file is read with the encoding
    of the request, [utf8] when the request gives none, in one call; when
    the read gives text, [_call] returns that text as a JSON string. *)
Theorem readFile_returns_the_text
    (B : Backend) (params : JsVal) (t : Trace) (s : string) :
  is_str (prop params "operation") "readFile" = true ->
  truthy (prop params "path") = true ->
  let encoding :=
    match prop params "encoding" with
    | JUndefined => JStr "utf8"
    | given => given
    end in
  fs_readFile B (prop params "path") encoding t = Ok (Text s) ->
  _call B (mkInputs (JStr "filesystem") params) t =
    (Ok (Some (quote s)), t ++ [FsReadFile (prop params "path") encoding]).
Proof.
  intros Hop Hpath encoding Hread.
  pose proof (truthy_not_nullish _ _ Hpath) as Hnull.
  assert (Henc : default_to (JStr "utf8") (prop params "encoding") = encoding).
  { subst encoding. unfold default_to.
    destruct (prop params "encoding"); reflexivity. }
  assert (Htruthy : truthy (prop params "operation") = true)
    by (apply (is_str_truthy _ "readFile"); [discriminate | exact Hop]).
  apply (call_returns B _ t (JStr s)); [reflexivity | | reflexivity].
  rewrite dispatch_filesystem.
  unfold handleFilesystem, bind, destructure, destructure_from. rewrite Hnull. cbn [ret].
  rewrite (truthy_not_falsy _ Htruthy), (truthy_not_falsy _ Hpath), Hop.
  cbn [orb]. unfold call. rewrite Henc, Hread. reflexivity.
Qed.

Lemma readFile_witness :
  _call quiet
    (mkInputs (JStr "filesystem")
       (JObj [("operation", JStr "readFile"); ("path", JStr "/tmp/t.txt")])) []
  = (Ok (Some (quote "abc")), [FsReadFile (JStr "/tmp/t.txt") (JStr "utf8")]).
Proof.
  apply (readFile_returns_the_text quiet
           (JObj [("operation", JStr "readFile"); ("path", JStr "/tmp/t.txt")])
           [] "abc"); reflexivity.
Defined.

(** ** Objects: writing and spreading properties *)

Lemma assoc_obj_set_same k v fields : assoc k (obj_set k v fields) = v.
Proof.
  induction fields as [|[k' v'] rest IH]; cbn.
  - now rewrite String.eqb_refl.
  - destruct (String.eqb k k') eqn:E; cbn; rewrite E; [reflexivity | exact IH].
Qed.

Lemma assoc_obj_set_other k k' v fields :
  k <> k' -> assoc k (obj_set k' v fields) = assoc k fields.
Proof.
  intros Hk. apply String.eqb_neq in Hk.
  induction fields as [|[k0 v0] rest IH]; cbn.
  - now rewrite Hk.
  - destruct (String.eqb k' k0) eqn:E; cbn.
    + apply String.eqb_eq in E. subst k0. now rewrite Hk.
    + destruct (String.eqb k k0); [reflexivity | exact IH].
Qed.

Lemma assoc_spread_absent k fields : forall base,
  ~ In k (map fst fields) ->
  assoc k (fold_left (fun acc kv => obj_set (fst kv) (snd kv) acc) fields base)
  = assoc k base.
Proof.
  induction fields as [|[k0 v0] rest IH]; intros base Hk; cbn.
  - reflexivity.
  - rewrite IH.
    + apply assoc_obj_set_other. intros ->. apply Hk. now left.
    + intros Hin. apply Hk. now right.
Qed.

(** A spread copies every property of the object, over what was there. *)
Lemma assoc_spread_present k v fields : forall base,
  NoDup (map fst fields) -> In (k, v) fields ->
  assoc k (fold_left (fun acc kv => obj_set (fst kv) (snd kv) acc) fields base)
  = v.
Proof.
  induction fields as [|[k0 v0] rest IH]; intros base Hnodup Hin; cbn.
  - destruct Hin.
  - inversion Hnodup as [|? ? Hfresh Hrest]; subst.
    destruct Hin as [[= -> ->] | Hin].
    + rewrite assoc_spread_absent by exact Hfresh.
      apply assoc_obj_set_same.
    + now apply IH.
Qed.

(** ** The command handler *)

(** X5.  [handleExecuteCommand] does not start a process without a
    command: a falsy [command] (absent, or the empty string) makes it throw
    with the trace unchanged; on object parameters the error is the
    missing-command error. *)
Theorem command_is_required_before_spawn
    (B : Backend) (params : JsVal) (t : Trace) :
  truthy (prop params "command") = false ->
  exists e,
    handleExecuteCommand B params t = (Throw e, t) /\
    (is_nullish params = false ->
     e = new_Error B ("Missing " ^ dq ^ "command" ^ dq
                      ^ " parameter for executeCommand")).
Proof.
  intros Hcommand.
  unfold handleExecuteCommand, bind, get.
  destruct (is_nullish params).
  - eexists. split; [reflexivity | discriminate].
  - cbn [ret]. unfold falsy. rewrite Hcommand. cbn [negb].
    eexists. split; reflexivity.
Qed.

Lemma command_is_required_witness :
  exists e,
    handleExecuteCommand quiet
      (JObj [("command", JStr ""); ("args", JArr [JStr "-la"])]) []
    = (Throw e, []).
Proof.
  destruct (command_is_required_before_spawn quiet
              (JObj [("command", JStr ""); ("args", JArr [JStr "-la"])]) []
              eq_refl) as [e [Hrun _]].
  exists e. exact Hrun.
Defined.

(** X6.  The options [handleExecuteCommand] hands to [execa] always have
    [windowsHide: true], whatever the caller put under that name; every
    other option of the caller's object is handed over with its value. *)
Theorem command_options_force_windowsHide
    (B : Backend) (params : JsVal) (t : Trace) :
  truthy (prop params "command") = true ->
  exists execaOptions,
    snd (handleExecuteCommand B params t) =
      t ++ [Execa (prop params "command")
              (default_to (JArr []) (prop params "args")) execaOptions] /\
    prop execaOptions "windowsHide" = JBool true /\
    (forall fields k v,
        prop params "options" = JObj fields ->
        NoDup (map fst fields) -> In (k, v) fields -> k <> "windowsHide" ->
        prop execaOptions k = v).
Proof.
  intros Hcommand.
  pose proof (truthy_not_nullish _ _ Hcommand) as Hnull.
  eexists. split; [| split].
  - unfold handleExecuteCommand, bind, get. rewrite Hnull. cbn [ret].
    rewrite (truthy_not_falsy _ Hcommand).
    unfold try_catch, bind.
    match goal with
    | |- context [execa B ?f ?a ?o t] =>
        pose proof (execa_trace B f a o t) as Ht;
        destruct (execa B f a o t) as [[r|e] t']
    end; cbn [snd] in Ht; subst t'; reflexivity.
  - cbn [prop]. apply assoc_obj_set_same.
  - intros fields k v Hoptions Hnodup Hin Hk.
    rewrite Hoptions. cbn [prop default_to is_undefined].
    rewrite assoc_obj_set_other by exact Hk.
    unfold spread_into. cbn [spread_props].
    now apply assoc_spread_present.
Qed.

Lemma command_options_witness :
  exists execaOptions,
    snd (handleExecuteCommand quiet
           (JObj [("command", JStr "ls");
                  ("options", JObj [("cwd", JStr "/tmp");
                                    ("windowsHide", JBool false)])]) [])
    = [Execa (JStr "ls") (JArr []) execaOptions] /\
    prop execaOptions "windowsHide" = JBool true /\
    prop execaOptions "cwd" = JStr "/tmp".
Proof.
  destruct (command_options_force_windowsHide quiet
              (JObj [("command", JStr "ls");
                     ("options", JObj [("cwd", JStr "/tmp");
                                       ("windowsHide", JBool false)])]) []
              eq_refl) as [execaOptions [Hrun [Hhide Hkeep]]].
  exists execaOptions. split; [exact Hrun |]. split; [exact Hhide |].
  apply (Hkeep [("cwd", JStr "/tmp"); ("windowsHide", JBool false)]).
  - reflexivity.
  - repeat constructor; cbn; intuition discriminate.
  - left. reflexivity.
  - discriminate.
Defined.

(** ** The Docker handler *)

Lemma handleDocker_exec B params t :
  is_str (prop params "operation") "execInContainer" = true ->
  truthy (prop params "containerId") = true ->
  truthy (prop params "command") = true ->
  handleDocker B params t =
    execInContainer B (prop params "containerId") (prop params "command")
      (default_to (JObj []) (prop params "options")) t.
Proof.
  intros Hop Hid Hcommand.
  pose proof (truthy_not_nullish _ _ Hcommand) as Hnull.
  assert (Htruthy : truthy (prop params "operation") = true)
    by (apply (is_str_truthy _ "execInContainer"); [discriminate | exact Hop]).
  assert (Hlist : is_str (prop params "operation") "listContainers" = false)
    by (apply (is_str_other _ "execInContainer"); [discriminate | exact Hop]).
  assert (Hinsp : is_str (prop params "operation") "inspectContainer" = false)
    by (apply (is_str_other _ "execInContainer"); [discriminate | exact Hop]).
  unfold handleDocker, bind, destructure, destructure_from. rewrite Hnull. cbn [ret].
  rewrite (truthy_not_falsy _ Htruthy), Hlist, Hinsp, Hop.
  rewrite (truthy_not_falsy _ Hid), (truthy_not_falsy _ Hcommand).
  reflexivity.
Qed.

Lemma is_str_text v lit : is_str v lit = true -> to_string v = Some lit.
Proof.
  destruct v; try discriminate. cbn [is_str to_string].
  intros H. apply String.eqb_eq in H. now subst.
Qed.

Lemma falsy_text v : truthy v = false -> to_string v <> None.
Proof. destruct v; cbn [truthy to_string]; discriminate. Qed.

(** X7.  [handleDocker] checks its parameters before it calls the daemon.
    A falsy operation, an inspect without a container, an exec without a
    container or without a command, and an operation that is none of the
    three the form offers: each makes it throw, and the trace stays as it
    was.  What it throws is a plain [Error] whenever the operation has a
    text; an operation without one (it can only be one the form does not
    offer) gives the [TypeError] of the conversion instead. *)
Theorem docker_validates_before_calling_daemon
    (B : Backend) (params : JsVal) (t : Trace) :
  is_nullish params = false ->
  truthy (prop params "operation") = false
  \/ (is_str (prop params "operation") "inspectContainer" = true /\
      truthy (prop params "containerId") = false)
  \/ (is_str (prop params "operation") "execInContainer" = true /\
      (truthy (prop params "containerId") = false \/
       truthy (prop params "command") = false))
  \/ (truthy (prop params "operation") = true /\
      offered dockerOperationOptions (prop params "operation") = false) ->
  exists e,
    handleDocker B params t = (Throw e, t) /\
    match to_string (prop params "operation") with
    | Some _ => exists msg, e = new_Error B msg
    | None => e = new_TypeError B "Cannot convert object to primitive value"
    end.
Proof.
  intros Hnull Hcase.
  unfold handleDocker, bind, destructure, destructure_from. rewrite Hnull. cbn [ret].
  destruct Hcase as [Hop | [[Hop Hid] | [[Hop Hmiss] | [Hop Hoff]]]].
  - unfold falsy. rewrite Hop. eexists. split; [reflexivity |].
    pose proof (falsy_text _ Hop) as Htext.
    destruct (to_string (prop params "operation")); [| contradiction].
    eexists. reflexivity.
  - assert (Htruthy : truthy (prop params "operation") = true)
      by (apply (is_str_truthy _ "inspectContainer"); [discriminate | exact Hop]).
    assert (Hlist : is_str (prop params "operation") "listContainers" = false)
      by (apply (is_str_other _ "inspectContainer"); [discriminate | exact Hop]).
    rewrite (truthy_not_falsy _ Htruthy), Hlist, Hop.
    unfold falsy. rewrite Hid. eexists. split; [reflexivity |].
    rewrite (is_str_text _ _ Hop). eexists. reflexivity.
  - assert (Htruthy : truthy (prop params "operation") = true)
      by (apply (is_str_truthy _ "execInContainer"); [discriminate | exact Hop]).
    assert (Hlist : is_str (prop params "operation") "listContainers" = false)
      by (apply (is_str_other _ "execInContainer"); [discriminate | exact Hop]).
    assert (Hinsp : is_str (prop params "operation") "inspectContainer" = false)
      by (apply (is_str_other _ "execInContainer"); [discriminate | exact Hop]).
    rewrite (truthy_not_falsy _ Htruthy), Hlist, Hinsp, Hop.
    unfold falsy.
    rewrite (is_str_text _ _ Hop).
    destruct Hmiss as [-> | ->]; cbn [negb orb]; rewrite ?orb_true_r;
      eexists; (split; [reflexivity | eexists; reflexivity]).
  - unfold offered, dockerOperationOptions in Hoff.
    cbn [existsb option_name] in Hoff.
    apply orb_false_elim in Hoff. destruct Hoff as [Hlist Hoff].
    apply orb_false_elim in Hoff. destruct Hoff as [Hinsp Hoff].
    apply orb_false_elim in Hoff. destruct Hoff as [Hexec _].
    rewrite (truthy_not_falsy _ Hop), Hlist, Hinsp, Hexec.
    unfold text_of.
    destruct (to_string (prop params "operation")); eexists;
      (split; [reflexivity |]); [eexists |]; reflexivity.
Qed.

Lemma docker_validation_witness :
  (exists e,
     handleDocker quiet
       (JObj [("operation", JStr "execInContainer"); ("command", JStr "ps")]) []
     = (Throw e, []) /\
     exists msg, e = new_Error quiet msg) /\
  (exists e,
     handleDocker quiet
       (JObj [("operation", JObj [("toString", JNum 1)])]) []
     = (Throw e, []) /\
     e = new_TypeError quiet "Cannot convert object to primitive value").
Proof.
  split.
  - apply (docker_validates_before_calling_daemon quiet
             (JObj [("operation", JStr "execInContainer");
                    ("command", JStr "ps")]) []); [reflexivity |].
    right. right. left. split; [reflexivity | left; reflexivity].
  - apply (docker_validates_before_calling_daemon quiet
             (JObj [("operation", JObj [("toString", JNum 1)])]) []);
      [reflexivity |].
    right. right. right. split; reflexivity.
Defined.

Lemma split_space_nonempty s : split_space s <> [].
Proof.
  destruct s as [|c rest]; cbn; [discriminate |].
  destruct (Ascii.eqb c " "); [discriminate |].
  destruct (split_space rest); discriminate.
Qed.

Lemma join_split_space s : join " " (split_space s) = s.
Proof.
  induction s as [|c rest IH]; [reflexivity |].
  cbn [split_space].
  pose proof (split_space_nonempty rest) as Hne.
  destruct (Ascii.eqb_spec c " ") as [-> | Hc].
  - destruct (split_space rest) as [|w ws] eqn:E; [contradiction |].
    change (join " " ("" :: w :: ws)) with ("" ^ " " ^ join " " (w :: ws)).
    rewrite IH. reflexivity.
  - destruct (split_space rest) as [|w ws] eqn:E; [contradiction |].
    destruct ws as [|w' ws'].
    + cbn [join] in IH |- *. now rewrite IH.
    + change (join " " (String c w :: w' :: ws'))
        with (String c w ^ " " ^ join " " (w' :: ws')).
      change (join " " (w :: w' :: ws'))
        with (w ^ " " ^ join " " (w' :: ws')) in IH.
      rewrite <- IH. reflexivity.
Qed.

Lemma split_space_spaceless s : Forall spaceless (split_space s).
Proof.
  induction s as [|c rest IH]; cbn [split_space].
  - constructor; [intros c [] | constructor].
  - destruct (Ascii.eqb_spec c " ") as [-> | Hc].
    + constructor; [intros c [] | exact IH].
    + pose proof (split_space_nonempty rest) as Hne.
      destruct (split_space rest) as [|w ws]; [contradiction |].
      inversion IH as [|? ? Hw Hws]; subst.
      constructor; [| exact Hws].
      intros c' [<- | Hin]; [exact Hc | now apply Hw].
Qed.

(** X8.  The command of an exec: an array is taken as it is; a string is
    cut at every single space, so that no piece holds a space and the
    pieces joined by one space give the string back (two spaces in a row
    give an empty piece).  Neither case calls anything. *)
Theorem exec_command_is_split_on_single_spaces
    (B : Backend) (t : Trace) :
  (forall items, exec_cmd B (JArr items) t = (Ok (JArr items), t)) /\
  (forall s, exists pieces,
      exec_cmd B (JStr s) t = (Ok (JArr (map JStr pieces)), t) /\
      join " " pieces = s /\
      Forall spaceless pieces /\
      pieces <> []).
Proof.
  split; [reflexivity |].
  intros s. exists (split_space s).
  split; [reflexivity |].
  split; [apply join_split_space |].
  split; [apply split_space_spaceless | apply split_space_nonempty].
Qed.

Example exec_command_double_space :
  exec_cmd quiet (JStr "ps  aux") []
  = (Ok (JArr [JStr "ps"; JStr ""; JStr "aux"]), []).
Proof. reflexivity. Qed.

Lemma exec_trace_head B containerId command options cmd t :
  exec_cmd B command t = (Ok cmd, t) ->
  exists rest,
    snd (execInContainer B containerId command options t) =
      t ++ DockerExecCreate containerId
             (JObj (spread_into [("Cmd", cmd); ("AttachStdout", JBool true);
                                 ("AttachStderr", JBool true);
                                 ("Tty", JBool false)] options)) :: rest.
Proof.
  intros Hcmd.
  unfold execInContainer. unfold bind at 1. rewrite Hcmd.
  match goal with
  | |- context [bind (call ?ev ?o) ?k] =>
      assert (Hk : forall a, appends (fun _ => True) (k a))
        by (intros; repeat appends_step; exact I);
      unfold bind at 1, call at 1; destruct (o t) as [a|e]
  end.
  - destruct (Hk a (t ++ [DockerExecCreate containerId
             (JObj (spread_into [("Cmd", cmd); ("AttachStdout", JBool true);
                                 ("AttachStderr", JBool true);
                                 ("Tty", JBool false)] options))]))
      as [added [Ht _]].
    exists added. rewrite Ht, <- app_assoc. reflexivity.
  - exists []. reflexivity.
Qed.

(** X9.  The options of an exec request are spread over the defaults of
    the exec: every option of the caller's object reaches the daemon with
    the caller's value, [Cmd], [AttachStdout], [AttachStderr] and [Tty]
    included, and a default stands only where the caller gave nothing. *)
Theorem exec_options_override_defaults
    (B : Backend) (params : JsVal) (t : Trace) (cmd : JsVal)
    (fields : list (string * JsVal)) :
  is_str (prop params "operation") "execInContainer" = true ->
  truthy (prop params "containerId") = true ->
  truthy (prop params "command") = true ->
  exec_cmd B (prop params "command") t = (Ok cmd, t) ->
  prop params "options" = JObj fields ->
  NoDup (map fst fields) ->
  exists opts rest,
    snd (handleDocker B params t) =
      t ++ DockerExecCreate (prop params "containerId") opts :: rest /\
    (forall k v, In (k, v) fields -> prop opts k = v) /\
    (forall k, ~ In k (map fst fields) ->
       prop opts k =
         assoc k [("Cmd", cmd); ("AttachStdout", JBool true);
                  ("AttachStderr", JBool true); ("Tty", JBool false)]).
Proof.
  intros Hop Hid Hcommand Hcmd Hoptions Hnodup.
  rewrite (handleDocker_exec B params t Hop Hid Hcommand).
  destruct (exec_trace_head B (prop params "containerId") (prop params "command")
              (default_to (JObj []) (prop params "options")) cmd t Hcmd)
    as [rest Hrest].
  eexists. exists rest. split; [exact Hrest |].
  rewrite Hoptions. cbn [default_to is_undefined prop].
  unfold spread_into. cbn [spread_props].
  split.
  - intros k v Hin. now apply assoc_spread_present.
  - intros k Hk. now apply assoc_spread_absent.
Qed.

Lemma exec_options_witness :
  exists opts rest,
    snd (handleDocker quiet
           (JObj [("operation", JStr "execInContainer");
                  ("containerId", JStr "web"); ("command", JStr "ls");
                  ("options", JObj [("User", JStr "root");
                                    ("Cmd", JArr [JStr "id"])])]) [])
    = DockerExecCreate (JStr "web") opts :: rest /\
    prop opts "Cmd" = JArr [JStr "id"] /\
    prop opts "Tty" = JBool false.
Proof.
  destruct (exec_options_override_defaults quiet
              (JObj [("operation", JStr "execInContainer");
                     ("containerId", JStr "web"); ("command", JStr "ls");
                     ("options", JObj [("User", JStr "root");
                                       ("Cmd", JArr [JStr "id"])])]) []
              (JArr [JStr "ls"])
              [("User", JStr "root"); ("Cmd", JArr [JStr "id"])]
              eq_refl eq_refl eq_refl eq_refl eq_refl)
    as [opts [rest [Hrun [Hgiven Hdefault]]]].
  - repeat constructor; cbn; intuition discriminate.
  - exists opts, rest. split; [exact Hrun |]. split.
    + apply Hgiven. right. left. reflexivity.
    + apply (Hdefault "Tty"). cbn. intuition discriminate.
Defined.

(** X10.  An exec that does not reach a clean end of its stream is never
    inspected.  When [exec.start] reports an error or hands over no stream,
    or when the stream fails after any number of chunks, [handleDocker]
    throws, and the trace it leaves holds no [exec.inspect] call. *)
Theorem exec_without_clean_end_is_not_inspected
    (B : Backend) (params : JsVal) (t : Trace) (cmd : JsVal) :
  is_str (prop params "operation") "execInContainer" = true ->
  truthy (prop params "containerId") = true ->
  truthy (prop params "command") = true ->
  exec_cmd B (prop params "command") t = (Ok cmd, t) ->
  let opts :=
    JObj (spread_into [("Cmd", cmd); ("AttachStdout", JBool true);
                       ("AttachStderr", JBool true); ("Tty", JBool false)]
                      (default_to (JObj []) (prop params "options"))) in
  let startOpts := JObj [("hijack", JBool true); ("stdin", JBool false)] in
  let created := t ++ [DockerExecCreate (prop params "containerId") opts] in
  docker_exec_create B (prop params "containerId") opts t = Ok tt ->
  (forall chunks,
      docker_exec_start B startOpts created <> Streaming chunks StreamEnded) ->
  exists e added,
    handleDocker B params t = (Throw e, t ++ added) /\
    ~ In DockerExecInspect added.
Proof.
  intros Hop Hid Hcommand Hcmd opts startOpts created Hcreate Hstart.
  rewrite (handleDocker_exec B params t Hop Hid Hcommand).
  unfold execInContainer, bind. rewrite Hcmd.
  fold opts startOpts. unfold call. rewrite Hcreate. fold created.
  destruct (docker_exec_start B startOpts created) as [e | | chunks fin].
  - exists e. eexists. split.
    + unfold created. cbn [throw]. rewrite <- app_assoc. reflexivity.
    + cbn. intuition discriminate.
  - eexists. eexists. split.
    + unfold created. cbn [throw]. rewrite <- app_assoc. reflexivity.
    + cbn. intuition discriminate.
  - destruct fin as [| e]; [exfalso; now apply (Hstart chunks) |].
    rewrite read_stream_accumulates. unfold emit. cbn [throw].
    exists e. eexists. split.
    + unfold created. rewrite <- !app_assoc. reflexivity.
    + cbn. intros [H | [H | H]]; try discriminate.
      apply in_app_or in H. destruct H as [H | [H | []]]; [| discriminate].
      apply in_map_iff in H. destruct H as [chunk [H _]]. discriminate.
Qed.

Lemma exec_stream_failure_witness :
  exists e added,
    handleDocker
      (with_exec_start quiet
         (fun _ _ => Streaming ["partial"] (StreamFailed (io_error "socket hang up"))))
      (JObj [("operation", JStr "execInContainer");
             ("containerId", JStr "web"); ("command", JStr "ls")]) []
    = (Throw e, [] ++ added) /\
    ~ In DockerExecInspect added.
Proof.
  apply (exec_without_clean_end_is_not_inspected
           (with_exec_start quiet
              (fun _ _ =>
                 Streaming ["partial"] (StreamFailed (io_error "socket hang up"))))
           (JObj [("operation", JStr "execInContainer");
                  ("containerId", JStr "web"); ("command", JStr "ls")]) []
           (JArr [JStr "ls"]) eq_refl eq_refl eq_refl eq_refl eq_refl).
  intros chunks. discriminate.
Defined.

(** ** The SSH handler *)



(** ** The script handler, run from a path *)

(** X12.  A script run from [scriptPath] (no script content) is handed to
    [python3] with the path first and the arguments after it, in one
    [execa] call without options, and no other call.  The handler does not
    throw, however the promise of [execa] settles: when it resolves, the
    result holds the output and the exit code of what it resolved to and no
    [error]; when it rejects, the result holds the output and the exit code
    of the error and, as [error], its short message, or its message when
    it has no short message.  Unlike the command handler, the result never
    carries [failed] or [timedOut]. *)
Theorem script_from_path_reports_the_process
    (B : Backend) (params : JsVal) (t : Trace) (items : list JsVal) :
  truthy (prop params "scriptContent") = false ->
  truthy (prop params "scriptPath") = true ->
  iterate (default_to (JArr []) (prop params "args")) = Some items ->
  let argv := JArr (prop params "scriptPath" :: items) in
  exists v,
    handlePythonScript B params t =
      (Ok v, t ++ [Execa (JStr "python3") argv JUndefined]) /\
    prop v "failed" = JUndefined /\
    prop v "timedOut" = JUndefined /\
    match execa_settles B (JStr "python3") argv JUndefined t with
    | Ok result =>
        prop v "stdout" = assoc "stdout" result /\
        prop v "stderr" = assoc "stderr" result /\
        prop v "exitCode" = assoc "exitCode" result /\
        prop v "error" = JUndefined
    | Throw error =>
        prop v "stdout" = assoc "stdout" (extra error) /\
        prop v "stderr" = assoc "stderr" (extra error) /\
        prop v "exitCode" = assoc "exitCode" (extra error) /\
        prop v "error" =
          (if truthy (assoc "shortMessage" (extra error))
           then assoc "shortMessage" (extra error)
           else JStr (message error))
    end.
Proof.
  intros Hcontent Hpath Hitems argv.
  pose proof (truthy_not_nullish _ _ Hpath) as Hnull.
  rewrite (script_unstaged B params t Hnull Hcontent).
  rewrite (truthy_not_falsy _ Hpath), Hitems. cbv zeta. fold argv.
  unfold execa, call. cbn [fst].
  destruct (execa_settles B (JStr "python3") argv JUndefined t)
    as [result | error];
    (eexists; repeat (split; [reflexivity |]); reflexivity).
Qed.

Lemma script_from_path_witness :
  exists v,
    handlePythonScript (sample_backend (Exited 3 "" "Traceback") (Ok tt) JNull)
      (JObj [("scriptPath", JStr "/app/job.py"); ("args", JArr [JStr "7"])]) []
    = (Ok v,
       [Execa (JStr "python3") (JArr [JStr "/app/job.py"; JStr "7"]) JUndefined])
    /\ prop v "exitCode" = JNum 3
    /\ prop v "error"
       = JStr "Command failed with exit code 3: python3 /app/job.py 7".
Proof.
  destruct (script_from_path_reports_the_process
              (sample_backend (Exited 3 "" "Traceback") (Ok tt) JNull)
              (JObj [("scriptPath", JStr "/app/job.py");
                     ("args", JArr [JStr "7"])]) [] [JStr "7"]
              eq_refl eq_refl eq_refl) as [v [Hrun [_ [_ Hshape]]]].
  cbn in Hshape. destruct Hshape as [_ [_ [Hcode Herror]]].
  exists v. repeat split; assumption.
Defined.

(** X13.  Arguments that cannot be spread (a number, an object) stop a
    script run from a path before the interpreter is called: the handler
    calls nothing, does not throw, and returns a result whose [error] holds
    the message of the [TypeError] and whose other members are
    [undefined]. *)
Theorem script_arguments_must_be_iterable
    (B : Backend) (params : JsVal) (t : Trace) :
  truthy (prop params "scriptContent") = false ->
  truthy (prop params "scriptPath") = true ->
  iterate (default_to (JArr []) (prop params "args")) = None ->
  exists v,
    handlePythonScript B params t = (Ok v, t) /\
    prop v "stdout" = JUndefined /\
    prop v "stderr" = JUndefined /\
    prop v "exitCode" = JUndefined /\
    truthy (prop v "error") = true.
Proof.
  intros Hcontent Hpath Hitems.
  pose proof (truthy_not_nullish _ _ Hpath) as Hnull.
  rewrite (script_unstaged B params t Hnull Hcontent).
  rewrite (truthy_not_falsy _ Hpath), Hitems.
  eexists. split; [reflexivity |]. repeat split; reflexivity.
Qed.

Lemma script_arguments_witness :
  exists v,
    handlePythonScript quiet
      (JObj [("scriptPath", JStr "/app/job.py"); ("args", JNum 7)]) []
    = (Ok v, []) /\
    truthy (prop v "error") = true.
Proof.
  destruct (script_arguments_must_be_iterable quiet
              (JObj [("scriptPath", JStr "/app/job.py"); ("args", JNum 7)]) []
              eq_refl eq_refl eq_refl) as [v [Hrun [_ [_ [_ Herror]]]]].
  exists v. split; assumption.
Defined.

(** * Properties of the Flowise node *)

Lemma appends_nothing {A : Type} (m : M A) :
  appends (fun _ => False) m -> forall t, snd (m t) = t.
Proof.
  intros H t. destruct (H t) as [added [Ht Hadded]].
  destruct added as [|ev rest]; [now rewrite app_nil_r in Ht |].
  inversion Hadded as [|? ? Hev _]. destruct Hev.
Qed.

Lemma parseJsonInput_appends B parse input field :
  appends (fun _ => False) (parseJsonInput B parse input field).
Proof.
  unfold parseJsonInput.
  destruct (is_nullish input); [apply appends_ret |].
  destruct input; try apply appends_ret.
  destruct (String.eqb (trim s) ""); [apply appends_ret |].
  apply appends_try_catch; [| intros; apply appends_throw].
  intros t. exists []. split; [symmetry; apply app_nil_r | constructor].
Qed.

Lemma assemble_appends B parse nodeData :
  appends (fun _ => False) (assemble B parse nodeData).
Proof.
  unfold assemble.
  repeat first
    [ apply parseJsonInput_appends
    | appends_step ].
Qed.

Lemma init_appends B parse nodeData :
  appends (fun _ => False) (init B parse nodeData).
Proof.
  unfold init, get, assign.
  repeat first
    [ apply assemble_appends
    | appends_step ].
Qed.

Lemma assemble_known_kind B parse nodeData t params :
  fst (assemble B parse nodeData t) = Ok params ->
  offered actionTypeOptions (input_of nodeData "actionType") = true.
Proof.
  unfold offered, actionTypeOptions. cbn [existsb option_name].
  unfold assemble.
  destruct (is_str (input_of nodeData "actionType") "filesystem");
    [reflexivity |].
  destruct (is_str (input_of nodeData "actionType") "executeCommand");
    [reflexivity |].
  destruct (is_str (input_of nodeData "actionType") "docker");
    [reflexivity |].
  destruct (is_str (input_of nodeData "actionType") "ssh"); [reflexivity |].
  destruct (is_str (input_of nodeData "actionType") "pythonScript");
    [reflexivity |].
  unfold bind, text_of.
  destruct (to_string (input_of nodeData "actionType")); discriminate.
Qed.

Lemma offered_is_string options v :
  offered options v = true -> exists s, v = JStr s.
Proof.
  unfold offered. intros H. apply existsb_exists in H.
  destruct H as [o [_ Ho]].
  destruct v; try discriminate. eauto.
Qed.

Lemma prop_is_object v k w : prop v k = w -> w <> JUndefined ->
  exists fields, v = JObj fields.
Proof.
  intros H Hw. destruct v; cbn in H; subst w; try contradiction. eauto.
Qed.

(** X14.  [init] calls no backend: the trace is never touched.  It returns
    only for node data whose [inputs] is an object with an [actionType]
    among the five offered; the branch that would create [inputs] is never
    taken, since without [inputs] there is no [actionType] and the [switch]
    throws.  When it returns, the assembled parameters are found under
    [inputs.actionParams], and every other input is as it was. *)
Theorem init_stores_the_parameters_in_the_inputs
    (B : Backend) (parse : string -> Res JsVal) (nodeData : JsVal) (t : Trace) :
  snd (init B parse nodeData t) = t /\
  forall nodeData',
    fst (init B parse nodeData t) = Ok nodeData' ->
    exists fields params,
      prop nodeData "inputs" = JObj fields /\
      offered actionTypeOptions (assoc "actionType" fields) = true /\
      fst (assemble B parse nodeData t) = Ok params /\
      input_of nodeData' "actionParams" = JObj params /\
      (forall k, k <> "actionParams" ->
         input_of nodeData' k = input_of nodeData k).
Proof.
  split; [apply appends_nothing, init_appends |].
  intros nodeData' Hinit.
  unfold init, bind, get in Hinit.
  destruct (is_nullish nodeData); [discriminate |]. cbn [ret] in Hinit.
  pose proof (appends_nothing _ (assemble_appends B parse nodeData) t) as Htrace.
  destruct (assemble B parse nodeData t) as [[params|e] t'] eqn:Hassemble;
    [| discriminate].
  cbn [snd] in Htrace. subst t'.
  pose proof (assemble_known_kind B parse nodeData t params) as Hkind.
  rewrite Hassemble in Hkind. specialize (Hkind eq_refl).
  destruct (offered_is_string _ _ Hkind) as [kind Hstr].
  unfold input_of in Hstr.
  destruct (is_nullish (prop nodeData "inputs")) eqn:Hnull; [discriminate |].
  destruct (prop_is_object _ _ _ Hstr ltac:(discriminate)) as [fields Hfields].
  assert (Hnode : exists nfields, nodeData = JObj nfields).
  { apply (prop_is_object nodeData "inputs" (JObj fields) Hfields).
    discriminate. }
  destruct Hnode as [nfields ->].
  rewrite Hfields in Hinit. cbn in Hinit. injection Hinit as <-.
  exists fields, params.
  split; [exact Hfields |].
  split; [unfold input_of in Hkind; rewrite Hnull, Hfields in Hkind;
          exact Hkind |].
  split; [reflexivity |].
  unfold input_of. cbn [prop]. rewrite !assoc_obj_set_same.
  cbn [is_nullish prop].
  cbn [prop] in Hfields. rewrite Hfields. cbn [is_nullish prop].
  split; [apply assoc_obj_set_same |].
  intros k Hk. now apply assoc_obj_set_other.
Qed.

Lemma init_stores_witness :
  exists fields params,
    prop (JObj [("inputs", JObj [("actionType", JStr "ssh");
                                 ("sshHost", JStr "example.org")])]) "inputs"
      = JObj fields /\
    assoc "port" params = JNum 22 /\
    assoc "host" params = JStr "example.org".
Proof.
  destruct (init_stores_the_parameters_in_the_inputs quiet sample_parse
              (JObj [("inputs", JObj [("actionType", JStr "ssh");
                                      ("sshHost", JStr "example.org")])]) [])
    as [_ Hstored].
  destruct (Hstored _ eq_refl) as [fields [params [Hfields [_ [Hparams _]]]]].
  exists fields, params. split; [exact Hfields |].
  cbn in Hparams. injection Hparams as <-. split; reflexivity.
Defined.

Lemma parseJsonInput_blank B parse input field t :
  is_blank input = true ->
  parseJsonInput B parse input field t = (Ok JUndefined, t).
Proof.
  intros H. unfold parseJsonInput.
  destruct input; try discriminate; cbn in H |- *; try reflexivity.
  now rewrite H.
Qed.

(** X15.  A kind that is none of the five offered is refused on both
    sides, and nothing happens: [init] throws, which is also what it does
    for node data without [inputs], and so does the [switch] of [_call],
    without calling a backend.  When the kind has a text, [init] throws the
    unknown-kind error and the [switch] the unsupported-kind error, each
    naming the kind; a kind without a text gives on both sides the
    [TypeError] of the conversion. *)
Theorem unknown_kind_is_refused_on_both_sides
    (B : Backend) (parse : string -> Res JsVal)
    (nodeData kind params : JsVal) (t : Trace) :
  offered actionTypeOptions kind = false ->
  dispatch B (mkInputs kind params) t =
    (Throw
       match to_string kind with
       | Some text => new_Error B ("Unsupported actionType: " ^ text)
       | None => new_TypeError B "Cannot convert object to primitive value"
       end, t) /\
  (is_nullish nodeData = false ->
   input_of nodeData "actionType" = kind ->
   init B parse nodeData t =
     (Throw
        match to_string kind with
        | Some text => new_Error B ("Unknown actionType in init: " ^ text)
        | None => new_TypeError B "Cannot convert object to primitive value"
        end, t)).
Proof.
  unfold offered, actionTypeOptions. cbn [existsb option_name]. intros Hoff.
  apply orb_false_elim in Hoff. destruct Hoff as [Hfs Hoff].
  apply orb_false_elim in Hoff. destruct Hoff as [Hcmd Hoff].
  apply orb_false_elim in Hoff. destruct Hoff as [Hdocker Hoff].
  apply orb_false_elim in Hoff. destruct Hoff as [Hssh Hoff].
  apply orb_false_elim in Hoff. destruct Hoff as [Hpy _].
  split.
  - unfold dispatch.
    change (actionType (mkInputs kind params)) with kind. cbv zeta.
    rewrite Hfs, Hcmd, Hdocker, Hssh, Hpy.
    unfold bind, text_of. destruct (to_string kind); reflexivity.
  - intros Hnull Hkind.
    unfold init, bind, get. rewrite Hnull. cbn [ret].
    unfold assemble. rewrite Hkind, Hfs, Hcmd, Hdocker, Hssh, Hpy.
    unfold bind, text_of. destruct (to_string kind); reflexivity.
Qed.

Lemma unknown_kind_witness :
  init quiet sample_parse (JObj [("id", JStr "node_0")]) []
  = (Throw (new_Error quiet "Unknown actionType in init: undefined"), []) /\
  dispatch quiet
    (mkInputs (JObj [("toString", JNull)]) (JObj [])) []
  = (Throw (new_TypeError quiet "Cannot convert object to primitive value"),
     []).
Proof.
  split.
  - apply (unknown_kind_is_refused_on_both_sides quiet sample_parse
             (JObj [("id", JStr "node_0")]) JUndefined JUndefined []);
      reflexivity.
  - apply (unknown_kind_is_refused_on_both_sides quiet sample_parse
             JNull (JObj [("toString", JNull)]) (JObj []) []).
    reflexivity.
Defined.

(** X16.  For an SSH node [init] assembles exactly the six parameters of
    the handler, in the order host, port, username, password, privateKey,
    command.  The port is never falsy: the port of the form when that is
    truthy, and 22 when the field is absent or 0. *)
Theorem init_defaults_the_ssh_port
    (B : Backend) (parse : string -> Res JsVal) (nodeData : JsVal) (t : Trace) :
  input_of nodeData "actionType" = JStr "ssh" ->
  exists params,
    assemble B parse nodeData t = (Ok params, t) /\
    map fst params =
      ["host"; "port"; "username"; "password"; "privateKey"; "command"] /\
    truthy (assoc "port" params) = true /\
    assoc "port" params =
      (if truthy (input_of nodeData "sshPort")
       then input_of nodeData "sshPort" else JNum 22) /\
    assoc "host" params = input_of nodeData "sshHost" /\
    assoc "command" params = input_of nodeData "sshCommand".
Proof.
  intros Hkind. unfold assemble. rewrite Hkind. cbn [is_str String.eqb Ascii.eqb Bool.eqb].
  eexists. split; [reflexivity |].
  cbn. unfold js_or.
  destruct (truthy (input_of nodeData "sshPort")) eqn:Hport;
    repeat split; try reflexivity; exact Hport.
Qed.

Lemma init_ssh_port_witness :
  exists params,
    assemble quiet sample_parse
      (JObj [("inputs", JObj [("actionType", JStr "ssh");
                              ("sshPort", JNum 0)])]) []
    = (Ok params, []) /\
    assoc "port" params = JNum 22.
Proof.
  destruct (init_defaults_the_ssh_port quiet sample_parse
              (JObj [("inputs", JObj [("actionType", JStr "ssh");
                                      ("sshPort", JNum 0)])]) [] eq_refl)
    as [params [Hrun [_ [_ [Hport _]]]]].
  exists params. split; [exact Hrun | exact Hport].
Defined.

(** X17.  For a filesystem node [init] forwards the operation and the
    path as they are, the content only when the operation is [writeFile],
    and the encoding only when it is truthy and the operation is [readFile]
    or [writeFile].  A content or an encoding left in the form from another
    operation does not reach the handler. *)
Theorem init_forwards_content_for_writeFile_only
    (B : Backend) (parse : string -> Res JsVal) (nodeData : JsVal) (t : Trace) :
  input_of nodeData "actionType" = JStr "filesystem" ->
  let operation := input_of nodeData "fsOperation" in
  exists params,
    assemble B parse nodeData t = (Ok params, t) /\
    assoc "operation" params = operation /\
    assoc "path" params = input_of nodeData "fsPath" /\
    assoc "content" params =
      (if is_str operation "writeFile"
       then input_of nodeData "fsContent" else JUndefined) /\
    assoc "encoding" params =
      (if (truthy (input_of nodeData "fsEncoding")
           && (is_str operation "readFile" || is_str operation "writeFile"))%bool
       then input_of nodeData "fsEncoding" else JUndefined).
Proof.
  intros Hkind operation. unfold assemble. rewrite Hkind.
  cbn [is_str String.eqb Ascii.eqb Bool.eqb]. fold operation.
  eexists. split; [reflexivity |].
  destruct (is_str operation "writeFile");
    destruct (truthy (input_of nodeData "fsEncoding")
              && (is_str operation "readFile" || true))%bool eqn:E1;
    destruct (truthy (input_of nodeData "fsEncoding")
              && (is_str operation "readFile" || false))%bool eqn:E2;
    cbn; repeat split; reflexivity.
Qed.

Lemma init_forwards_content_witness :
  exists params,
    assemble quiet sample_parse
      (JObj [("inputs", JObj [("actionType", JStr "filesystem");
                              ("fsOperation", JStr "deleteFile");
                              ("fsPath", JStr "/tmp/t.txt");
                              ("fsContent", JStr "left over");
                              ("fsEncoding", JStr "latin1")])]) []
    = (Ok params, []) /\
    assoc "content" params = JUndefined /\
    assoc "encoding" params = JUndefined.
Proof.
  destruct (init_forwards_content_for_writeFile_only quiet sample_parse
              (JObj [("inputs", JObj [("actionType", JStr "filesystem");
                                      ("fsOperation", JStr "deleteFile");
                                      ("fsPath", JStr "/tmp/t.txt");
                                      ("fsContent", JStr "left over");
                                      ("fsEncoding", JStr "latin1")])]) []
              eq_refl)
    as [params [Hrun [_ [_ [Hcontent Hencoding]]]]].
  exists params. repeat split; assumption.
Defined.

(** X18.  Arguments that are not JSON stop [init]: when the Exec
    Arguments field holds a string that is not blank and that [JSON.parse]
    rejects, [init] throws an error that names the field, carries the
    message of the parser and quotes the input; the options are not looked
    at and nothing is called. *)
Theorem invalid_exec_arguments_stop_init
    (B : Backend) (parse : string -> Res JsVal) (nodeData : JsVal) (t : Trace)
    (s : string) (e : JsError) :
  is_nullish nodeData = false ->
  input_of nodeData "actionType" = JStr "executeCommand" ->
  input_of nodeData "execArgs" = JStr s ->
  String.eqb (trim s) "" = false ->
  parse s = Throw e ->
  init B parse nodeData t =
    (Throw (new_Error B ("Invalid JSON in Exec Arguments: " ^ message e
                         ^ ". Input was: " ^ dq ^ s ^ dq)), t).
Proof.
  intros Hnull Hkind Hargs Hblank Hparse.
  unfold init, bind, get. rewrite Hnull. cbn [ret].
  unfold assemble. rewrite Hkind.
  cbn [is_str String.eqb Ascii.eqb Bool.eqb].
  unfold bind, parseJsonInput at 1. rewrite Hargs. cbn [is_nullish].
  rewrite Hblank. unfold try_catch. rewrite Hparse. reflexivity.
Qed.

Lemma invalid_exec_arguments_witness :
  init quiet sample_parse
    (JObj [("inputs", JObj [("actionType", JStr "executeCommand");
                            ("execCommand", JStr "ls");
                            ("execArgs", JStr "-la")])]) []
  = (Throw (new_Error quiet
              ("Invalid JSON in Exec Arguments: Unexpected token. Input was: "
               ^ dq ^ "-la" ^ dq)), []).
Proof.
  apply (invalid_exec_arguments_stop_init quiet sample_parse
           (JObj [("inputs", JObj [("actionType", JStr "executeCommand");
                                   ("execCommand", JStr "ls");
                                   ("execArgs", JStr "-la")])]) []
           "-la" (mkError "Unexpected token"
                    (sample_stack "SyntaxError" "Unexpected token") []));
    reflexivity.
Defined.

(** X19.  A command node whose JSON fields are left blank (absent, or
    white space only) runs the bare command: [init] consults no parser and
    assembles [args = []] and [options = {}], and the handler, given these
    parameters, calls [execa] once with the command, no arguments and the
    single option [windowsHide: true]. *)
Theorem blank_json_fields_run_the_bare_command
    (B : Backend) (parse : string -> Res JsVal) (nodeData : JsVal) (t : Trace) :
  input_of nodeData "actionType" = JStr "executeCommand" ->
  is_blank (input_of nodeData "execArgs") = true ->
  is_blank (input_of nodeData "execOptions") = true ->
  truthy (input_of nodeData "execCommand") = true ->
  let params :=
    [("command", input_of nodeData "execCommand"); ("args", JArr []);
     ("options", JObj [])] in
  assemble B parse nodeData t = (Ok params, t) /\
  snd (handleExecuteCommand B (JObj params) t) =
    t ++ [Execa (input_of nodeData "execCommand") (JArr [])
            (JObj [("windowsHide", JBool true)])].
Proof.
  intros Hkind Hargs Hoptions Hcommand params.
  split.
  - unfold assemble. rewrite Hkind.
    cbn [is_str String.eqb Ascii.eqb Bool.eqb].
    unfold bind. rewrite (parseJsonInput_blank _ _ _ _ _ Hargs).
    rewrite (parseJsonInput_blank _ _ _ _ _ Hoptions). reflexivity.
  - unfold handleExecuteCommand, bind, get. cbn [is_nullish ret].
    cbn [prop params assoc String.eqb Ascii.eqb Bool.eqb].
    rewrite (truthy_not_falsy _ Hcommand).
    unfold try_catch, bind.
    match goal with
    | |- context [execa B ?f ?a ?o t] =>
        pose proof (execa_trace B f a o t) as Ht;
        destruct (execa B f a o t) as [[r|e] t']
    end; cbn [snd] in Ht; subst t'; reflexivity.
Qed.

Lemma blank_json_fields_witness :
  snd (handleExecuteCommand quiet
         (JObj [("command", JStr "ls"); ("args", JArr []); ("options", JObj [])])
         [])
  = [Execa (JStr "ls") (JArr []) (JObj [("windowsHide", JBool true)])].
Proof.
  apply (blank_json_fields_run_the_bare_command quiet sample_parse
           (JObj [("inputs", JObj [("actionType", JStr "executeCommand");
                                   ("execCommand", JStr "ls");
                                   ("execArgs", JStr "  ")])]) []);
    reflexivity.
Defined.

(** X20.  An exec node whose command field is left empty is not stopped
    by the validation of the handler.  [init] turns the empty field into the
    empty array; an array is truthy, so the check for a missing command
    lets it pass, and the exec is created at the daemon. *)
Theorem blank_exec_command_reaches_the_daemon
    (B : Backend) (parse : string -> Res JsVal) (nodeData : JsVal) (t : Trace)
    (params : list (string * JsVal)) :
  input_of nodeData "actionType" = JStr "docker" ->
  input_of nodeData "dockerOperation" = JStr "execInContainer" ->
  truthy (input_of nodeData "dockerContainerId") = true ->
  truthy (input_of nodeData "dockerCommand") = false ->
  fst (assemble B parse nodeData t) = Ok params ->
  assoc "command" params = JArr [] /\
  exists opts rest,
    snd (handleDocker B (JObj params) t) =
      t ++ DockerExecCreate (input_of nodeData "dockerContainerId") opts :: rest.
Proof.
  intros Hkind Hop Hid Hcommand Hassemble.
  unfold assemble in Hassemble. rewrite Hkind, Hop, Hcommand in Hassemble.
  cbn [is_str String.eqb Ascii.eqb Bool.eqb orb] in Hassemble.
  unfold bind in Hassemble.
  destruct (parseJsonInput B parse (input_of nodeData "dockerExecOptions")
              "Docker Exec Options" t) as [[options|e] t'];
    [| discriminate].
  cbn in Hassemble. injection Hassemble as <-.
  split; [reflexivity |].
  rewrite handleDocker_exec; try reflexivity; try exact Hid.
  cbn [prop assoc String.eqb Ascii.eqb Bool.eqb].
  destruct (exec_trace_head B (input_of nodeData "dockerContainerId") (JArr [])
              (default_to (JObj []) (js_or options (JObj []))) (JArr []) t
              eq_refl) as [rest Hrest].
  eexists. exists rest. exact Hrest.
Qed.

Lemma blank_exec_command_witness :
  exists opts rest,
    snd (handleDocker quiet
           (JObj [("operation", JStr "execInContainer");
                  ("containerId", JStr "web"); ("command", JArr []);
                  ("options", JObj [])]) [])
    = DockerExecCreate (JStr "web") opts :: rest.
Proof.
  apply (blank_exec_command_reaches_the_daemon quiet sample_parse
           (JObj [("inputs", JObj [("actionType", JStr "docker");
                                   ("dockerOperation", JStr "execInContainer");
                                   ("dockerContainerId", JStr "web")])]) []
           [("operation", JStr "execInContainer");
            ("containerId", JStr "web"); ("command", JArr []);
            ("options", JObj [])]); reflexivity.
Defined.

(** * The script handler: a staging write that fails *)

(** X21.  The staging write happens outside the [try]: when a truthy
    script content cannot be written, [handlePythonScript] throws the error
    of the write as it is; the interpreter is not called and no removal is
    attempted. *)
Theorem failed_staging_write_is_thrown
    (B : Backend) (params : JsVal) (t : Trace) (e : JsError) :
  truthy (prop params "scriptContent") = true ->
  let now := date_now B t in
  let tmp := JStr (temp_script_path now) in
  fs_writeFile B tmp (prop params "scriptContent") JUndefined
    (t ++ [DateNow now]) = Throw e ->
  handlePythonScript B params t =
    (Throw e,
     t ++ [DateNow now; FsWriteFile tmp (prop params "scriptContent") JUndefined]).
Proof.
  intros Hcontent now tmp Hwrite.
  pose proof (truthy_not_nullish _ _ Hcontent) as Hnull.
  unfold handlePythonScript, bind at 1, destructure, destructure_from.
  rewrite Hnull. cbn [ret].
  unfold bind at 1, stage_script. rewrite Hcontent.
  unfold bind at 1. fold now tmp.
  unfold bind at 1, call at 1. rewrite Hwrite.
  rewrite <- app_assoc. reflexivity.
Qed.

Lemma failed_staging_write_witness :
  handlePythonScript
    {| error_stack := sample_stack;
       date_now := fun _ => 5%Z;
       fs_readFile := fs_readFile quiet;
       fs_writeFile := fun _ _ _ _ => Throw (io_error "ENOSPC");
       fs_remove := fs_remove quiet;
       fs_readdir := fs_readdir quiet;
       fs_pathExists := fs_pathExists quiet;
       execa_settles := execa_settles quiet;
       docker_listContainers := docker_listContainers quiet;
       docker_inspect := docker_inspect quiet;
       docker_exec_create := docker_exec_create quiet;
       docker_exec_start := docker_exec_start quiet;
       docker_exec_inspect := docker_exec_inspect quiet;
       ssh_session := ssh_session quiet |}
    (JObj [("scriptContent", JStr "print(1)")]) []
  = (Throw (io_error "ENOSPC"),
     [DateNow 5;
      FsWriteFile (JStr "/tmp/flowise_python_script_5.py") (JStr "print(1)")
        JUndefined]).
Proof.
  apply failed_staging_write_is_thrown; reflexivity.
Defined.

(** * [_call]: the requests that get their string *)

(** X22.  For a request that is an object, whose kind has a text, and
    whose kind and parameters hold no BigInt, [_call] returns and its value
    is a string, whatever the backend does: it never throws and never
    yields [undefined].  When the [switch] returned a payload without a
    BigInt the string is the payload serialized.  When the [switch] threw,
    be it a handler or the default branch for an unknown kind, the string
    is the serialized object [{ error, details, actionType, actionParams }]
    made of the message and the stack of what was thrown and of the
    request's kind and parameters. *)
Theorem call_returns_a_string_for_plain_requests
    (B : Backend) (inputs : Inputs) (t : Trace) (label : string) :
  is_nullish inputs = false ->
  to_string (actionType inputs) = Some label ->
  has_bigint (actionType inputs) = false ->
  has_bigint (actionParams inputs) = false ->
  exists s,
    fst (_call B inputs t) = Ok (Some s) /\
    match fst (dispatch B inputs t) with
    | Ok payload => has_bigint payload = false -> JSON_text payload = Some s
    | Throw error =>
        JSON_text
          (JObj [("error", JStr (message error));
                 ("details", JStr (stack error));
                 ("actionType", actionType inputs);
                 ("actionParams", actionParams inputs)]) = Some s
    end.
Proof.
  intros Hin Hlabel Hkind Hparams.
  destruct (dispatch B inputs t) as [[payload|error] t'] eqn:Hrun; cbn [fst].
  - destruct (has_bigint payload) eqn:Hbig.
    + pose proof (call_payload_refused B inputs t payload t' label
                    Hin Hrun Hbig Hlabel) as Hcall.
      cbv zeta in Hcall.
      rewrite (error_result_text _ inputs Hkind Hparams) in Hcall.
      rewrite Hcall. eexists. split; [reflexivity | discriminate].
    + destruct (call_success B inputs t payload t' Hin Hrun Hbig)
        as [s [Hs Hcall]].
      exists s. rewrite Hcall. split; [reflexivity | intros _].
      unfold JSON_text. now rewrite Hs.
  - rewrite (call_caught B inputs t error t' label Hin Hrun Hlabel).
    rewrite (error_result_text error inputs Hkind Hparams).
    eexists. split; [reflexivity |].
    unfold JSON_text.
    change (JObj [("error", JStr (message error));
                  ("details", JStr (stack error));
                  ("actionType", actionType inputs);
                  ("actionParams", actionParams inputs)])
      with (error_result error inputs).
    now rewrite (error_result_text error inputs Hkind Hparams).
Qed.

Lemma call_returns_a_string_witness :
  exists s,
    fst (_call quiet
           (mkInputs (JStr "docker") (JObj [("operation", JStr "prune")])) [])
    = Ok (Some s) /\
    JSON_text
      (JObj [("error", JStr "Unsupported docker operation: prune");
             ("details",
              JStr (sample_stack "Error" "Unsupported docker operation: prune"));
             ("actionType", JStr "docker");
             ("actionParams", JObj [("operation", JStr "prune")])]) = Some s.
Proof.
  exact (call_returns_a_string_for_plain_requests quiet
           (mkInputs (JStr "docker") (JObj [("operation", JStr "prune")])) []
           "docker" eq_refl eq_refl eq_refl eq_refl).
Defined.
